(** * byemail: the HTTP front end ([byemail/httpserver.py])

    A shallow embedding of the request handlers of the webmail backend and
    of the two session middlewares, followed by the properties of the
    specification stated on them.

    Handlers are written in a small free monad over the calls they make to
    their collaborators ([storage], [account_manager], [smtp], [mailutils],
    the operating system's entropy source) and over the operations on the
    mutable objects they share with them (the session dictionaries and the
    [request['session']] slot).  Python exceptions are the [Raise] leaves of
    a program. *)

From Stdlib Require Import ZArith String Ascii List Lia DecimalString.
From stdpp Require Import base gmap strings list fin_maps.

Local Open Scope string_scope.
Local Open Scope Z_scope.

(** ** Python values *)

(** [datetime.datetime], kept as the fields of the object. *)
Record datetime := mk_datetime {
  dt_year : Z; dt_month : Z; dt_day : Z;
  dt_hour : Z; dt_minute : Z; dt_second : Z; dt_microsecond : Z
}.

(** The objects that travel between the storage layer, the handlers and the
    JSON responses.  [VList] stands for lists and tuples alike.  A mail or
    mailbox record is held by one handler between the call that fetches it
    and the call or response that hands it on, so its updates in place are
    written as updates of the value; the session dictionaries, which the
    storage and the request share across calls, are kept by reference (see
    [objop] and [objects] below). *)
#[warnings="-register-all"]
Inductive value : Type :=
| VNone
| VBool (b : bool)
| VInt (n : Z)
| VStr (s : string)
| VBytes (bs : list Z)
| VDatetime (d : datetime)
| VList (l : list value)
| VDict (d : gmap string value).

(** Truth value of an object, as [if x:] and [not x] test it. *)
Definition truthy (v : value) : bool :=
  match v with
  | VNone => false
  | VBool b => b
  | VInt n => negb (Z.eqb n 0)
  | VStr s => negb (String.eqb s "")
  | VBytes bs => match bs with [] => false | _ => true end
  | VDatetime _ => true
  | VList l => match l with [] => false | _ => true end
  | VDict d => negb (Nat.eqb (size d) 0)
  end.

(** [isinstance(v, datetime.datetime)] *)
Definition is_datetime (v : value) : bool :=
  match v with VDatetime _ => true | _ => false end.

(** [v != s] for a string [s]: objects of another type are never equal to a
    string. *)
Definition ne_str (v : value) (s : string) : bool :=
  match v with
  | VStr s' => negb (String.eqb s' s)
  | _ => true
  end.

(** An account object of [byemail.account]: the handlers read [name] and
    [address] and call [to_json()].  An account object is true where it is
    tested ([if account:]). *)
Record account := mk_account {
  name : string;
  address : string;
  to_json : value
}.

(** ** Exceptions *)

Inductive exn : Type :=
| Forbidden (msg : string)
| KeyError (key : string)
| TypeError
| ValueError
| AttributeError
| OverflowError.

Definition is_forbidden (e : exn) : bool :=
  match e with Forbidden _ => true | _ => false end.

(** References to the mutable session dictionaries. *)
Definition loc := nat.

(** ** Outcomes of a computation that may raise *)

Inductive result (A : Type) : Type :=
| Ok (a : A)
| Exn (e : exn).
Arguments Ok {A} a.
Arguments Exn {A} e.

#[global] Instance result_ret : MRet result := λ A a, Ok a.
#[global] Instance result_bind : MBind result := λ A B f r,
  match r with Ok a => f a | Exn e => Exn e end.
#[global] Instance result_fmap : FMap result := λ A B f r,
  match r with Ok a => Ok (f a) | Exn e => Exn e end.

(** [for x in l: x' = f(x)], stopping at the first exception. *)
Fixpoint for_each {A B} (f : A → result B) (l : list A) : result (list B) :=
  match l with
  | [] => Ok []
  | x :: l' => y ← f x; ys ← for_each f l'; Ok (y :: ys)
  end.

(** ** Operations on objects *)

(** [v[k]] for a string key. *)
Definition getitem (v : value) (k : string) : result value :=
  match v with
  | VDict d => match d !! k with Some x => Ok x | None => Exn (KeyError k) end
  | _ => Exn TypeError
  end.

(** [v[k] = x]; the updated object is returned. *)
Definition setitem (v : value) (k : string) (x : value) : result value :=
  match v with
  | VDict d => Ok (VDict (<[k := x]> d))
  | _ => Exn TypeError
  end.

(** [v.get(k)] and [v.get(k, dflt)]: only dictionaries have the method. *)
Definition get_default (v : value) (k : string) (dflt : value) : result value :=
  match v with
  | VDict d => Ok (default dflt (d !! k))
  | _ => Exn AttributeError
  end.

Definition chars (s : string) : list value :=
  (λ c, VStr (String c EmptyString)) <$> list_ascii_of_string s.

(** The elements [for x in v] visits.  A dictionary yields its keys. *)
Definition iter (v : value) : result (list value) :=
  match v with
  | VList l => Ok l
  | VDict d => Ok ((λ kv, VStr kv.1) <$> map_to_list d)
  | VStr s => Ok (chars s)
  | VBytes bs => Ok (VInt <$> bs)
  | _ => Exn TypeError
  end.

(** [for m in v: body(m)] where the body updates [m] in place.  The elements
    of a list are updated in the list; the elements any other iterable
    yields (keys, characters, integers) are not objects the body can
    update, so the iterable is unchanged when the body does not raise. *)
Definition for_in_place (body : value → result value) (v : value) : result value :=
  match v with
  | VList l => VList <$> for_each body l
  | _ => xs ← iter v; _ ← for_each body xs; Ok v
  end.

(** ** Requests and responses *)

Record request := mk_request {
  cookies : gmap string string;   (* request.cookies *)
  json_body : value;              (* request.json *)
  args : gmap string string       (* request.args, first value of each *)
}.

Inductive body : Type :=
| JsonBody (v : value)                       (* the JSON text of v *)
| StreamBody (content : value)               (* sanic.response.stream *)
| RedirectTo (url : string)                  (* sanic.response.redirect *)
| ErrorBody (e : exn).                       (* sanic's error handler *)

Record response := mk_response {
  status : Z;
  content_type : value;
  resp_body : body;
  resp_cookies : gmap string string
}.

(** The response [sanic.response.json] returns once its body is encoded. *)
Definition json_response (v : value) : response :=
  mk_response 200 (VStr "application/json") (JsonBody v) ∅.

Definition stream (content : value) (ctype : value) : response :=
  mk_response 200 ctype (StreamBody content) ∅.

Definition redirect (url : string) : response :=
  mk_response 302 (VStr "text/html; charset=utf-8") (RedirectTo url) ∅.

(** [response.cookies[k] = v] *)
Definition set_cookie (k v : string) (r : response) : response :=
  mk_response (status r) (content_type r) (resp_body r) (<[k := v]> (resp_cookies r)).

(** ** Programs *)

(** Operations on the mutable objects a handler shares with the rest of the
    server: the session dictionaries and the [request['session']] slot. *)
Inductive objop : Type → Type :=
| DictNew : objop loc                                       (* {} *)
| DictGet (o : loc) (k : string) : objop (option value)     (* o.get(k, None) *)
| DictSet (o : loc) (k : string) (v : value) : objop unit   (* o[k] = v *)
| DictPop (o : loc) (k : string) : objop unit               (* o.pop(k, None) *)
| RequestSession : objop (option loc)                       (* request['session'] *)
| SetRequestSession (o : loc) : objop unit.                 (* request['session'] = o *)

(** Calls to the collaborators.  A call is answered with a [result]: the
    collaborator returns an object or raises. *)
Inductive call : Type → Type :=
| Urandom16 : call Z                                         (* os.urandom(16), as an integer *)
| GetUserSession (key : string) : call loc                   (* storage.get_user_session *)
| SaveUserSession (key : string) (o : loc) : call unit       (* storage.save_user_session *)
| GetMailboxes (a : account) : call value                    (* storage.get_mailboxes *)
| GetMailbox (mailbox_id : string) : call value              (* storage.get_mailbox *)
| GetMail (mail_id : string) : call value                    (* storage.get_mail *)
| UpdateMail (m : value) : call unit                         (* storage.update_mail *)
| GetMailAttachment (mail_id : string) (idx : Z) : call value
| ContactsSearch (a : account) (text : string) : call value  (* storage.contacts_search *)
| Authenticate (credentials : value) : call (option account) (* account_manager.authenticate *)
| AccountGet (token : value) : call (option account)         (* account_manager.get *)
| ParseEmail (addr : value) : call value                     (* mailutils.parse_email *)
| MakeMsg (subject content from_addr tos ccs attachments : value) : call value
| SendMail (a : account) (msg from_addr all_addrs : value) : call value
| ResendMail (a : account) (m tos : value) : call value.

Inductive prog (A : Type) : Type :=
| Ret (a : A)
| Raise (e : exn)
| Obj {X : Type} (o : objop X) (k : X → prog A)
| Call {X : Type} (c : call X) (k : result X → prog A).
Arguments Ret {A} a.
Arguments Raise {A} e.
Arguments Obj {A X} o k.
Arguments Call {A X} c k.

Fixpoint bind {A B} (p : prog A) (f : A → prog B) : prog B :=
  match p with
  | Ret a => f a
  | Raise e => Raise e
  | Obj o k => Obj o (λ x, bind (k x) f)
  | Call c k => Call c (λ x, bind (k x) f)
  end.

#[global] Instance prog_ret : MRet prog := λ A a, Ret a.
#[global] Instance prog_bind : MBind prog := λ A B f p, bind p f.

(** A pure computation that may raise, run inside a handler. *)
Definition lift {A} (r : result A) : prog A :=
  match r with Ok a => Ret a | Exn e => Raise e end.

Definition obj {X} (o : objop X) : prog X := Obj o Ret.

(** A call either returns or raises in the caller. *)
Definition await {X} (c : call X) : prog X := Call c lift.

Fixpoint catch {A} (p : prog A) (h : exn → prog A) : prog A :=
  match p with
  | Ret a => Ret a
  | Raise e => h e
  | Obj o k => Obj o (λ x, catch (k x) h)
  | Call c k => Call c (λ x, catch (k x) h)
  end.

(** ** What the handlers take from Python's library and from the
    configuration *)

Class Env := {
  (** [datetime.isoformat()] *)
  isoformat : datetime → string;
  (** [mimetypes.guess_extension] on a string *)
  guess_extension : string → option string;
  (** [str(v)] for the objects [py_str] below leaves out *)
  str_other : value → string;
  (** [int(s)] on a string; [None] where Python raises [ValueError] *)
  py_int : string → option Z;
  (** [auth.auth_session_key] of sanic_auth *)
  auth_session_key : string;
  (** [dumps], the encoder [sanic.response.json] applies to its body: the
      exception it raises on an object it refuses ([TypeError],
      [OverflowError]), [None] on an object it encodes *)
  dumps_raises : value → option exn;
  (** the two bodies the handlers write themselves are encoded *)
  dumps_empty_list : dumps_raises (VList []) = None;
  dumps_ok : dumps_raises (VStr "Ok") = None
}.

(** ** Session keys: [uuid.uuid4().hex] *)

Definition hex_digit (d : Z) : ascii :=
  match d with
  | 0 => "0" | 1 => "1" | 2 => "2" | 3 => "3" | 4 => "4" | 5 => "5" | 6 => "6"
  | 7 => "7" | 8 => "8" | 9 => "9" | 10 => "a" | 11 => "b" | 12 => "c"
  | 13 => "d" | 14 => "e" | _ => "f"
  end%char.

(** The hexadecimal digits of a non-negative integer, least significant
    first, without leading zeros ([0] has the one digit [0]). *)
Fixpoint hex_digits (fuel : nat) (n : Z) : list Z :=
  match fuel with
  | O => []
  | S fuel' =>
      n mod 16 :: (if Z.eqb (n / 16) 0 then [] else hex_digits fuel' (n / 16))
  end.

(** ['%x' % n] for [n >= 0] *)
Definition hex (n : Z) : string :=
  string_of_list_ascii (hex_digit <$> rev (hex_digits (S (Z.to_nat (Z.log2 n))) n)).

(** [s.rjust(width, '0')]: the padding of ['%0<width>x'] *)
Definition zero_pad (width : nat) (s : string) : string :=
  string_of_list_ascii (replicate (width - String.length s)%nat "0"%char) +:+ s.

(** [UUID(bytes=..., version=4).int]: the variant and version bits are
    forced on the 128 random bits. *)
Definition uuid4 (random : Z) : Z :=
  let i := Z.land random (Z.lnot (Z.shiftl 0xc000 48)) in
  let i := Z.lor i (Z.shiftl 0x8000 48) in
  let i := Z.land i (Z.lnot (Z.shiftl 0xf000 64)) in
  Z.lor i (Z.shiftl 4 76).

(** [UUID.hex]: ['%032x' % self.int] *)
Definition uuid_hex (i : Z) : string := zero_pad 32 (hex i).

Definition gen_session_key : prog string :=
  random ← await Urandom16;
  mret (uuid_hex (uuid4 random)).

(** The value of a hexadecimal string, most significant digit first. *)
Definition hex_value_digit (c : ascii) : option Z :=
  let n := Z.of_nat (nat_of_ascii c) in
  if (48 <=? n) && (n <=? 57) then Some (n - 48)
  else if (97 <=? n) && (n <=? 102) then Some (n - 87)
  else None.

Fixpoint hex_value_from (acc : Z) (s : string) : option Z :=
  match s with
  | EmptyString => Some acc
  | String c s' =>
      match hex_value_digit c with
      | Some d => hex_value_from (acc * 16 + d) s'
      | None => None
      end
  end.

Definition hex_value (s : string) : option Z := hex_value_from 0 s.

(** The value of a list of hexadecimal digits, least significant first. *)
Definition digits_value (l : list Z) : Z := foldr (λ d a, a * 16 + d) 0 l.

(** ** The handlers *)

Section Handlers.
Context `{E : Env}.

(** [str(v)], as ['{}'.format(v)] renders an argument. *)
Definition py_str (v : value) : string :=
  match v with
  | VStr s => s
  | VInt n => DecimalString.NilZero.string_of_int (Z.to_int n)
  | VNone => "None"
  | VBool true => "True"
  | VBool false => "False"
  | _ => str_other v
  end.

(** [sanic.response.json(v)] is [HTTPResponse(dumps(v), ...)]: the body is
    encoded when the response is made, so what the encoder raises is raised
    where the handler calls [json]. *)
Definition json (v : value) : result response :=
  match dumps_raises v with
  | Some e => Exn e
  | None => Ok (json_response v)
  end.

Definition handle_no_auth (req : request) : prog response :=
  Raise (Forbidden "This route need authentification").

(** *** sanic_auth: [Auth.get_session], [current_user], [logout_user],
    [login_required] *)

Definition get_session : prog loc :=
  s ← obj RequestSession;
  match s with
  | Some o => mret o
  | None => Raise (KeyError "session")
  end.

(** The user loader is [account_manager.get]. *)
Definition current_user : prog (option account) :=
  session ← get_session;
  token ← obj (DictGet session auth_session_key);
  match token with
  | None | Some VNone => mret None
  | Some t => await (AccountGet t)
  end.

Definition logout_user : prog unit :=
  session ← get_session;
  obj (DictPop session auth_session_key).

Definition login_required (route : request → account → prog response)
    (req : request) : prog response :=
  user ← current_user;
  match user with
  | None => handle_no_auth req
  | Some u => route req u
  end.

(** *** Middlewares *)

(** [request.cookies.get('session_key')] is [None] or a string; both [None]
    and the empty string are false. *)
Definition add_session_to_request (req : request) : prog unit :=
  let session_key := cookies req !! "session_key" in
  let empty_session :=
    session ← obj DictNew;
    obj (SetRequestSession session) in
  match session_key with
  | Some key =>
      if truthy (VStr key) then
        session ← await (GetUserSession key);
        obj (SetRequestSession session)
      else empty_session
  | None => empty_session
  end.

Definition add_session_key_to_response (req : request) (resp : response)
    : prog response :=
  let auth_key := cookies req !! "session_key" in
  match auth_key, resp_cookies resp !! "session_key" with
  | None, None =>
      session_key ← gen_session_key;
      mret (set_cookie "session_key" session_key resp)
  | _, _ => mret resp
  end.

(** *** Routes *)

Definition login (req : request) : prog response :=
  let credentials := json_body req in
  account ← await (Authenticate credentials);
  match account with
  | Some account =>
      session_key ← gen_session_key;
      session ← await (GetUserSession session_key);
      _ ← obj (DictSet session auth_session_key (VStr (name account)));
      _ ← await (SaveUserSession session_key session);
      response ← lift (json (to_json account));
      mret (set_cookie "session_key" session_key response)
  | None =>
      Raise (Forbidden "Authentification failed. Check your credentials.")
  end.

Definition logout (req : request) : prog response :=
  _ ← logout_user;
  fresh_session ← obj DictNew;
  _ ← obj (SetRequestSession fresh_session);
  response ← lift (json (VStr "Ok"));
  session_key ← gen_session_key;
  mret (set_cookie "session_key" session_key response).

Definition account_route (req : request) (account : account) : prog response :=
  lift (json (to_json account)).

Definition index (req : request) : prog response :=
  mret (redirect "/index.html").

(** [if isinstance(m[k], datetime.datetime): m[k] = m[k].isoformat()] *)
Definition reshape_datetime (k : string) (m : value) : result value :=
  x ← getitem m k;
  match x with
  | VDatetime d => setitem m k (VStr (isoformat d))
  | _ => mret m
  end.

Definition mailboxes (req : request) (account : account) : prog response :=
  mbxs ← await (GetMailboxes account);
  mbxs ← lift (for_in_place (reshape_datetime "last_message") mbxs);
  lift (json mbxs).

Definition mailbox (mailbox_id : string) (req : request) (account : account)
    : prog response :=
  mailbox_to_return ← await (GetMailbox mailbox_id);
  owner ← lift (getitem mailbox_to_return "account");
  if ne_str owner (name account) then
    Raise (Forbidden "You don't have permission to see this mailbox.")
  else
    messages ← lift (getitem mailbox_to_return "messages");
    messages ← lift (for_in_place (reshape_datetime "date") messages);
    (* the messages were updated in the list the mailbox holds *)
    mailbox_to_return ← lift (setitem mailbox_to_return "messages" messages);
    lift (json mailbox_to_return).

(** [mimetypes.guess_extension(t)] on an arbitrary object: the function
    starts with [t.lower()]; a bytes object has the method and is in no
    table. *)
Definition guess_extension_of (t : value) : result (option string) :=
  match t with
  | VStr s => Ok (guess_extension s)
  | VBytes _ => Ok None
  | _ => Exn AttributeError
  end.

(** The body of the loop over the attachments of a mail. *)
Definition name_attachment (mail_id : string) (att : value) : result value :=
  filename ← get_default att "filename" VNone;
  att ← (if negb (truthy filename) then
           type ← getitem att "type";
           guessed_ext ← guess_extension_of type;
           let guessed_ext :=
             match guessed_ext with
             | Some e => if truthy (VStr e) then e else ".bin"
             | None => ".bin"
             end in
           idx ← getitem att "index";
           setitem att "filename" (VStr ("file_" +:+ py_str idx +:+ guessed_ext))
         else mret att);
  idx ← getitem att "index";
  filename ← getitem att "filename";
  setitem att "url"
    (VStr ("/api/mail/" +:+ mail_id +:+ "/attachment/" +:+ py_str idx +:+ "/"
           +:+ py_str filename)).

Definition mail (mail_id : string) (req : request) (account : account)
    : prog response :=
  mail_to_return ← await (GetMail mail_id);
  owner ← lift (getitem mail_to_return "account");
  if ne_str owner (name account) then
    Raise (Forbidden "You don't have permission to see this mail.")
  else
    mail_to_return ← lift (reshape_datetime "date" mail_to_return);
    attachments ← lift (getitem mail_to_return "attachments");
    attachments ← lift (for_in_place (name_attachment mail_id) attachments);
    (* the attachments were updated in the list the mail holds *)
    mail_to_return ← lift (setitem mail_to_return "attachments" attachments);
    lift (json mail_to_return).

Definition mail_mark_read (mail_id : string) (req : request) (account : account)
    : prog response :=
  mail_to_mark ← await (GetMail mail_id);
  owner ← lift (getitem mail_to_mark "account");
  if ne_str owner (name account) then
    Raise (Forbidden "You don't have permission to see this mail.")
  else
    mail_to_mark ← lift (setitem mail_to_mark "unread" (VBool false));
    _ ← await (UpdateMail mail_to_mark);
    lift (json mail_to_mark).

(** [a, b = v] *)
Definition unpack2 (v : value) : result (value * value) :=
  xs ← iter v;
  match xs with
  | [a; b] => Ok (a, b)
  | _ => Exn ValueError
  end.

Definition mail_download_attachment (mail_id att_index filename : string)
    (req : request) (account : account) : prog response :=
  idx ← lift (match py_int att_index with Some i => Ok i | None => Exn ValueError end);
  r ← await (GetMailAttachment mail_id idx);
  '(attachment, att_content) ← lift (unpack2 r);
  type ← lift (getitem attachment "type");
  mret (stream att_content type).
(** [[f(a) for a in l if cond(a)]]: the condition is evaluated before the
    element. *)
Fixpoint comprehension (cond : value → result bool) (f : value → prog value)
    (l : list value) : prog (list value) :=
  match l with
  | [] => mret []
  | a :: l' =>
      c ← lift (cond a);
      if c : bool then
        y ← f a;
        ys ← comprehension cond f l';
        mret (y :: ys)
      else comprehension cond f l'
  end.

(** [a['type'] == kind] *)
Definition has_type (kind : string) (a : value) : result bool :=
  t ← getitem a "type";
  mret (negb (ne_str t kind)).

(** [mailutils.parse_email(a['address'])] *)
Definition parse_recipient (a : value) : prog value :=
  addr ← lift (getitem a "address");
  await (ParseEmail addr).

Definition sendmail (req : request) (account : account) : prog response :=
  let data := json_body req in
  from_addr ← await (ParseEmail (VStr (address account)));
  recipients ← lift (getitem data "recipients" ≫= iter);
  all_addrs ← comprehension (λ _, Ok true) parse_recipient recipients;
  recipients ← lift (getitem data "recipients" ≫= iter);
  tos ← comprehension (has_type "to") parse_recipient recipients;
  recipients ← lift (getitem data "recipients" ≫= iter);
  ccs ← comprehension (has_type "cc") parse_recipient recipients;
  attachments ← lift (get_default data "attachments" (VList []));
  subject ← lift (getitem data "subject");
  content ← lift (getitem data "content");
  msg ← await (MakeMsg subject content from_addr (VList tos) (VList ccs) attachments);
  result ← await (SendMail account msg from_addr (VList all_addrs));
  lift (json result).

Definition mail_resend (mail_id : string) (req : request) (account : account)
    : prog response :=
  mail_to_resend ← await (GetMail mail_id);
  owner ← lift (getitem mail_to_resend "account");
  if ne_str owner (name account) then
    Raise (Forbidden "You don't have permission to resend this mail.")
  else
    let data := json_body req in
    to ← lift (getitem data "to");
    to ← await (ParseEmail to);
    result ← await (ResendMail account mail_to_resend (VList [to]));
    lift (json result).

Definition contacts_search (req : request) (account : account) : prog response :=
  let text := default "" (args req !! "text") in
  if negb (truthy (VStr text)) then lift (json (VList []))
  else
    results ← await (ContactsSearch account text);
    lift (json results).

(** *** The routing table *)

Inductive route : Type :=
| RLogin                                   (* POST /login *)
| RLogout                                  (* GET /logout *)
| RAccount                                 (* GET /api/account *)
| RIndex                                   (* GET / *)
| RMailboxes                               (* GET /api/mailboxes *)
| RMailbox (mailbox_id : string)           (* GET /api/mailbox/<mailbox_id> *)
| RMail (mail_id : string)                 (* GET /api/mail/<mail_id> *)
| RMarkRead (mail_id : string)             (* POST /api/mail/<mail_id>/mark_read *)
| RAttachment (mail_id att_index filename : string)
| RSendmail                                (* POST /api/sendmail/ *)
| RResend (mail_id : string)               (* POST /api/mail/<mail_id>/resend *)
| RContactsSearch.                         (* GET /api/contacts/search *)

(** The handler registered for a route, with its decorators. *)
Definition dispatch (r : route) : request → prog response :=
  match r with
  | RLogin => login
  | RLogout => login_required (λ req _, logout req)
  | RAccount => login_required account_route
  | RIndex => index
  | RMailboxes => login_required mailboxes
  | RMailbox mailbox_id => login_required (mailbox mailbox_id)
  | RMail mail_id => login_required (mail mail_id)
  | RMarkRead mail_id => login_required (mail_mark_read mail_id)
  | RAttachment mail_id att_index filename =>
      login_required (mail_download_attachment mail_id att_index filename)
  | RSendmail => login_required sendmail
  | RResend mail_id => login_required (mail_resend mail_id)
  | RContactsSearch => login_required contacts_search
  end.

(** The routes decorated with [auth.login_required]. *)
Definition session_protected (r : route) : bool :=
  match r with
  | RLogin | RIndex => false
  | _ => true
  end.

(** Sanic's default error handler: a [SanicException] such as [Forbidden]
    is answered as text with its own status, 403; any other exception is a
    server error, answered with an HTML page. *)
Definition error_response (e : exn) : response :=
  mk_response (if is_forbidden e then 403 else 500)
    (VStr (if is_forbidden e then "text/plain; charset=utf-8"
           else "text/html; charset=utf-8"))
    (ErrorBody e) ∅.

(** One request through the application: request middleware, handler,
    response middleware. *)
Definition handle_request (r : route) (req : request) : prog response :=
  resp ← catch (_ ← add_session_to_request req; dispatch r req)
               (λ e, mret (error_response e));
  add_session_key_to_response req resp.

End Handlers.

(** ** Running a program *)

(** The mutable objects: the session dictionaries by reference, and the
    [session] item of the request being served. *)
Record objects := mk_objects {
  heap : gmap loc (gmap string value);
  session_slot : option loc
}.

Definition obj_step {X} (o : objop X) (σ : objects) : X * objects :=
  match o in objop X return X * objects with
  | DictNew =>
      let l := fresh (dom (heap σ)) in
      (l, mk_objects (<[l := ∅]> (heap σ)) (session_slot σ))
  | DictGet l k => (heap σ !! l ≫= (λ d, d !! k), σ)
  | DictSet l k v => (tt, mk_objects (alter (insert k v) l (heap σ)) (session_slot σ))
  | DictPop l k => (tt, mk_objects (alter (delete k) l (heap σ)) (session_slot σ))
  | RequestSession => (session_slot σ, σ)
  | SetRequestSession l => (tt, mk_objects (heap σ) (Some l))
  end.

(** A model of the collaborators: their state, and how each call is
    answered.  A call sees the objects too, since the storage may hand out
    and keep references to session dictionaries. *)
Record model := mk_model {
  state : Type;
  step : ∀ X, call X → objects * state → result X * (objects * state)
}.

(** The calls a run made, in order, with their answers. *)
Inductive event : Type :=
| Called {X : Type} (c : call X) (r : result X).

Fixpoint run {A} (M : model) (p : prog A) (w : objects * state M)
    : result A * (objects * state M) * list event :=
  match p with
  | Ret a => (Ok a, w, [])
  | Raise e => (Exn e, w, [])
  | Obj o k =>
      let '(x, σ) := obj_step o w.1 in
      run M (k x) (σ, w.2)
  | Call c k =>
      let '(r, w') := step M _ c w in
      let '(a, w'', t) := run M (k r) w' in
      (a, w'', Called c r :: t)
  end.

Definition outcome {A} {M} (x : result A * (objects * state M) * list event) : result A := x.1.1.
Definition final {A} {M} (x : result A * (objects * state M) * list event) : objects * state M := x.1.2.
Definition trace {A} {M} (x : result A * (objects * state M) * list event) : list event := x.2.

(** ** The session store *)

(** Modelled from the spec: [byemail.storage], of which the source has only
    the calls.  The sessions are "looked up server-side per request" in the
    storage, which holds "all durable state"; "absent/invalid token yields an
    empty session".  Whether the storage hands out the dictionaries it keeps
    or copies of them is said nowhere, so there are two stores.

    The first keeps the sessions by value: [get_user_session] hands out a
    new dictionary with the stored content of the key (empty for an unknown
    key), and [save_user_session] writes the content of a dictionary back
    under the key, as [login] does after changing the session it was
    handed. *)
Record store := mk_store {
  sessions : gmap string (gmap string value);
  draws : nat     (* how many times the entropy source was read *)
}.

(** The other collaborators answer from fixed tables. *)
Record backend := mk_backend {
  entropy : nat → Z;
  answer : ∀ X, call X → result X
}.

Definition durable_step (B : backend) X (c : call X) (w : objects * store)
    : result X * (objects * store) :=
  let '(σ, st) := w in
  match c in call X return result X * (objects * store) with
  | Urandom16 =>
      (Ok (Z.land (entropy B (draws st)) (Z.ones 128)),
       (σ, mk_store (sessions st) (S (draws st))))
  | GetUserSession key =>
      let l := fresh (dom (heap σ)) in
      (Ok l,
       (mk_objects (<[l := default ∅ (sessions st !! key)]> (heap σ)) (session_slot σ),
        st))
  | SaveUserSession key l =>
      (Ok tt,
       (σ, mk_store (<[key := default ∅ (heap σ !! l)]> (sessions st)) (draws st)))
  | c' => (answer B _ c', w)
  end.

Definition durable (B : backend) : model := mk_model store (durable_step B).






(** What [storage.get_user_session(key)] yields in a store. *)
Definition stored_session (st : store) (key : string) : gmap string value :=
  default ∅ (sessions st !! key).

(** ** Observations on a trace *)

Definition is_contacts_search (e : event) : bool :=
  match e with
  | Called c _ => match c with ContactsSearch _ _ => true | _ => false end
  end.

Definition is_storage_call (e : event) : bool :=
  match e with
  | Called c _ =>
      match c with
      | GetUserSession _ | SaveUserSession _ _ | GetMailboxes _ | GetMailbox _
      | GetMail _ | UpdateMail _ | GetMailAttachment _ _ | ContactsSearch _ _ => true
      | _ => false
      end
  end.

(** The objects handed to [storage.update_mail]. *)
Definition updated_mails (t : list event) : list value :=
  omap (λ e, match e with
             | Called c _ => match c with UpdateMail m => Some m | _ => None end
             end) t.

(** ** A request without a valid authenticated session *)

(** [request['session']] is bound and either holds no login entry or holds
    one that [account_manager.get] maps to no account. *)
Definition no_valid_session `{E : Env} (M : model) (w : objects * state M) : Prop :=
  ∃ l, session_slot w.1 = Some l ∧
    match heap w.1 !! l ≫= (λ d, d !! auth_session_key) with
    | None | Some VNone => True
    | Some token => (step M _ (AccountGet token) w).1 = Ok None
    end.

Definition is_hex_digit (c : ascii) : bool :=
  match hex_value_digit c with Some _ => true | None => false end.

(** ** What the responses promise *)

Section Promises.
Context `{E : Env}.

(** The field [k] after the reshaping of timestamps: a datetime has become
    its ISO-8601 string, any other value is as it was. *)
Definition field_reshaped (k : string) (d d' : gmap string value) : Prop :=
  match d !! k with
  | Some (VDatetime dt) => d' !! k = Some (VStr (isoformat dt))
  | x => d' !! k = x
  end.

(** An entry of a listing after the reshaping of its field [k]: the entry
    has the field, the field is reshaped, and nothing else has changed. *)
Definition entry_reshaped (k : string) (m m' : value) : Prop :=
  ∃ d d', m = VDict d ∧ m' = VDict d' ∧ is_Some (d !! k) ∧
    field_reshaped k d d' ∧ ∀ j, j ≠ k → d' !! j = d !! j.

(** An entry the reshaping loop accepts. *)
Definition has_field (k : string) (m : value) : Prop :=
  ∃ d, m = VDict d ∧ is_Some (d !! k).

(** The extension of a default attachment name: the one guessed from the
    type, [.bin] when none can be guessed. *)
Definition default_extension (type : value) : string :=
  match type with
  | VStr s =>
      match guess_extension s with
      | Some e => if String.eqb e "" then ".bin" else e
      | None => ".bin"
      end
  | _ => ".bin"
  end.

(** An attachment of the single-message response: it has a file name, the
    default one if it came without, and a download URL built from the mail,
    its index and its file name. *)
Definition attachment_named (mail_id : string) (att att' : value) : Prop :=
  ∃ (a a' : gmap string value) idx filename,
    att = VDict a ∧ att' = VDict a' ∧
    a !! "index" = Some idx ∧
    a' !! "filename" = Some filename ∧
    match a !! "filename" with
    | None =>
        ∃ type, a !! "type" = Some type ∧
          filename = VStr ("file_" +:+ py_str idx +:+ default_extension type)
    | Some f => truthy f = true → filename = f
    end ∧
    a' !! "url" = Some (VStr ("/api/mail/" +:+ mail_id +:+ "/attachment/" +:+
                              py_str idx +:+ "/" +:+ py_str filename)) ∧
    ∀ k, k ≠ "filename" → k ≠ "url" → a' !! k = a !! k.

(** An attachment the naming loop accepts: a dictionary with an index, and
    with a type that has a [lower()] method when it has no file name. *)
Definition nameable (att : value) : Prop :=
  ∃ a : gmap string value, att = VDict a ∧ is_Some (a !! "index") ∧
    (truthy (default VNone (a !! "filename")) = false →
     ∃ type, a !! "type" = Some type ∧
       match type with VStr _ | VBytes _ => True | _ => False end).

End Promises.

(** ** A small installation, for running the handlers *)

(** A strict JSON encoder.  It refuses what one or another version of
    ujson refuses: datetime objects and bytes with [TypeError], integers
    that do not fit 64 bits with [OverflowError]. *)
Fixpoint strict_dumps_raises (v : value) : option exn :=
  match v with
  | VNone | VBool _ | VStr _ => None
  | VInt n =>
      if (Z.leb (- 2 ^ 63) n && Z.ltb n (2 ^ 64))%bool then None else Some OverflowError
  | VBytes _ | VDatetime _ => Some TypeError
  | VList l =>
      foldr (λ x rest, match strict_dumps_raises x with Some e => Some e | None => rest end)
            None l
  | VDict d =>
      map_fold (λ _ x found,
                  match found with Some e => Some e | None => strict_dumps_raises x end)
               None d
  end.

Definition demo_env : Env := {|
  isoformat := λ d, "2018-05-01T10:00:00";
  guess_extension := λ s, if String.eqb s "image/png" then Some ".png" else None;
  str_other := λ _, "<object>";
  py_int := λ s, if String.eqb s "0" then Some 0
                 else if String.eqb s "1" then Some 1 else None;
  auth_session_key := "_auth";
  dumps_raises := strict_dumps_raises;
  dumps_empty_list := eq_refl;
  dumps_ok := eq_refl
|}.

Definition test_account : account :=
  mk_account "test" "test@example.com"
    (VDict {[ "name" := VStr "test"; "address" := VStr "test@example.com" ]}).

(** A mail of another account, [alice], with one unnamed and one named
    attachment. *)
Definition alice_mail : gmap string value :=
  {[ "account" := VStr "alice";
     "unread" := VBool true;
     "date" := VDatetime (mk_datetime 2018 5 1 10 0 0 0);
     "subject" := VStr "hello";
     "attachments" := VList
       [ VDict {[ "index" := VInt 0; "type" := VStr "image/png" ]};
         VDict {[ "index" := VInt 1; "type" := VStr "text/x-unknown";
                  "filename" := VStr "notes.txt" ]} ] ]}.

(** The same mail in the mailbox of [test]. *)
Definition test_mail : gmap string value := <["account" := VStr "test"]> alice_mail.

(** A mail of [test] stored with its date as a string. *)
Definition plain_mail : gmap string value :=
  {[ "account" := VStr "test";
     "unread" := VBool true;
     "date" := VStr "2018-05-02T09:30:00";
     "subject" := VStr "minutes";
     "attachments" := VList [] ]}.

(** A mail of [test] with a datetime and an integer beyond 64 bits. *)
Definition wide_mail : gmap string value := <["size" := VInt (2 ^ 64)]> test_mail.

Definition test_mailbox : gmap string value :=
  {[ "account" := VStr "test";
     "messages" := VList
       [ VDict {[ "date" := VDatetime (mk_datetime 2018 5 1 10 0 0 0);
                  "subject" := VStr "hello" ]};
         VDict {[ "date" := VStr "2018-04-30T08:00:00";
                  "subject" := VStr "older" ]} ] ]}.

Definition test_mailboxes : list value :=
  [ VDict {[ "name" := VStr "alice@example.com";
             "last_message" := VDatetime (mk_datetime 2018 5 1 10 0 0 0) ]};
    VDict {[ "name" := VStr "bob@example.com"; "last_message" := VNone ]} ].

Definition demo_answer X (c : call X) : result X :=
  match c in call X return result X with
  | Urandom16 => Ok 0
  | GetUserSession _ => Ok 0%nat
  | SaveUserSession _ _ => Ok tt
  | GetMailboxes _ => Ok (VList test_mailboxes)
  | GetMailbox _ => Ok (VDict test_mailbox)
  | GetMail mail_id =>
      Ok (VDict (if String.eqb mail_id "m1" then alice_mail
                 else if String.eqb mail_id "m3" then plain_mail
                 else if String.eqb mail_id "m4" then wide_mail
                 else test_mail))
  | UpdateMail _ => Ok tt
  | GetMailAttachment _ _ =>
      Ok (VList [VDict {[ "type" := VStr "image/png" ]}; VBytes [137; 80; 78; 71]])
  | ContactsSearch _ _ => Ok (VList [])
  | Authenticate credentials =>
      Ok (match getitem credentials "name", getitem credentials "password" with
          | Ok (VStr "test"), Ok (VStr "test_pass") => Some test_account
          | _, _ => None
          end)
  | AccountGet token =>
      Ok (match token with VStr "test" => Some test_account | _ => None end)
  | ParseEmail addr => Ok addr
  | MakeMsg subject _ _ _ _ _ => Ok subject
  | SendMail _ _ _ _ => Ok (VList [])
  | ResendMail _ _ _ => Ok (VList [])
  end.

Definition demo_backend : backend :=
  mk_backend (λ n, 2 ^ 127 + Z.of_nat n) demo_answer.

Definition demo : model := durable demo_backend.

(** The server before any request. *)
Definition start : objects * store := (mk_objects ∅ None, mk_store ∅ 0).



Definition good_login : request :=
  mk_request ∅ (VDict {[ "name" := VStr "test"; "password" := VStr "test_pass" ]}) ∅.

Definition bad_login : request :=
  mk_request ∅ (VDict {[ "name" := VStr "test"; "password" := VStr "bad_password" ]}) ∅.

(** The key the first login hands out, and a request that presents it. *)
Definition first_key : string := "80000000000040008000000000000000".

Definition with_cookie (key : string) : request :=
  mk_request {[ "session_key" := key ]} VNone ∅.

(** The server after [test] has logged in. *)
Definition logged_in : objects * store :=
  final (run demo (handle_request (E := demo_env) RLogin good_login) start).


(** The message of [test_send_mail] in the repository's tests. *)
Definition test_message : value :=
  VDict {[ "recipients" := VList
             [ VDict {[ "address" := VStr "alt.n2-75zy2uk@yopmail.com"; "type" := VStr "to" ]};
               VDict {[ "address" := VStr "alt.n2-75zy2uk@yopmail.com"; "type" := VStr "cc" ]} ];
           "subject" := VStr "Test mail";
           "content" := VStr ("Content" +:+ String (ascii_of_nat 10) "Multiline");
           "attachments" := VList
             [ VDict {[ "filename" := VStr "testfile.txt"; "b64" := VStr "VGVzdAo=" ]} ] ]}.

(** The request of the logged-in [test], after the request middleware. *)
Definition served : objects * store :=
  final (run demo (add_session_to_request (with_cookie first_key)) logged_in).

(** ** The calls a program can make and the responses it can return *)

(** Every call on every path of the program is one [P] allows, and every
    value the program returns satisfies [Q]. *)
Fixpoint within {A} (P : ∀ X, call X → bool) (Q : A → Prop) (p : prog A) : Prop :=
  match p with
  | Ret a => Q a
  | Raise _ => True
  | Obj o k => ∀ x, within P Q (k x)
  | Call c k => P _ c = true ∧ ∀ r, within P Q (k r)
  end.

Definition event_in (P : ∀ X, call X → bool) (e : event) : bool :=
  match e with Called c _ => P _ c end.

Definition any_call : ∀ X, call X → bool := λ _ _, true.

(** The collaborators' calls each route makes, read off the handlers. *)
Definition permitted (r : route) X (c : call X) : bool :=
  match r, c with
  | RLogin, (Authenticate _ | Urandom16 | GetUserSession _ | SaveUserSession _ _) => true
  | RLogout, (AccountGet _ | Urandom16) => true
  | RAccount, AccountGet _ => true
  | RMailboxes, (AccountGet _ | GetMailboxes _) => true
  | RMailbox _, (AccountGet _ | GetMailbox _) => true
  | RMail _, (AccountGet _ | GetMail _) => true
  | RMarkRead _, (AccountGet _ | GetMail _ | UpdateMail _) => true
  | RAttachment _ _ _, (AccountGet _ | GetMailAttachment _ _) => true
  | RSendmail, (AccountGet _ | ParseEmail _ | MakeMsg _ _ _ _ _ _ | SendMail _ _ _ _) => true
  | RResend _, (AccountGet _ | GetMail _ | ParseEmail _ | ResendMail _ _ _) => true
  | RContactsSearch, (AccountGet _ | ContactsSearch _ _) => true
  | _, _ => false
  end.

(** The calls that change something outside the request: a stored session,
    a stored mail, a mail on its way. *)
Definition is_write X (c : call X) : bool :=
  match c with
  | SaveUserSession _ _ | UpdateMail _ | SendMail _ _ _ _ | ResendMail _ _ _ => true
  | _ => false
  end.

Definition is_save_session X (c : call X) : bool :=
  match c with SaveUserSession _ _ => true | _ => false end.

(** The method each route is registered for ([app.route] registers [GET]
    unless [methods] says otherwise). *)
Inductive http_method : Type := GET | POST.

Definition method (r : route) : http_method :=
  match r with
  | RLogin | RMarkRead _ | RSendmail | RResend _ => POST
  | _ => GET
  end.

(** ** Sessions in the store *)

(** The keys and dictionaries handed to [storage.save_user_session]. *)
Definition saved_sessions (t : list event) : list (string * loc) :=
  omap (λ e, match e with
             | Called c _ =>
                 match c with SaveUserSession key l => Some (key, l) | _ => None end
             end) t.

(** The store after a login of [acct] under [key]. *)
Definition logged `{E : Env} (st : store) (key : string) (acct : account) : store :=
  mk_store (<[key := <[auth_session_key := VStr (name acct)]> (stored_session st key)]>
              (sessions st))
           (S (draws st)).

(** The mails handed to [smtp.resend_mail], with the account they are
    resent for. *)
Definition resent_mails (t : list event) : list (account * value) :=
  omap (λ e, match e with
             | Called c _ =>
                 match c with ResendMail a m _ => Some (a, m) | _ => None end
             end) t.

(** The calls to [smtp.send_mail]: account, message, sender, envelope. *)
Definition sent_mails (t : list event) : list (account * value * value * value) :=
  omap (λ e, match e with
             | Called c _ =>
                 match c with
                 | SendMail a msg from_addr all_addrs => Some (a, msg, from_addr, all_addrs)
                 | _ => None
                 end
             end) t.

(** The calls to [mailutils.make_msg]. *)
Definition made_msgs (t : list event)
    : list (value * value * value * value * value * value) :=
  omap (λ e, match e with
             | Called c _ =>
                 match c with
                 | MakeMsg subject content from_addr tos ccs attachments =>
                     Some (subject, content, from_addr, tos, ccs, attachments)
                 | _ => None
                 end
             end) t.

(** The calls that establish the session of a request: the lookup of the
    request middleware, the user loader of the decorator, the entropy draw
    for a new key. *)
Definition is_session_handling X (c : call X) : bool :=
  match c with
  | Urandom16 | GetUserSession _ | AccountGet _ => true
  | _ => false
  end.

(** The objects after [request['session'] = {}]. *)
Definition with_empty_session (σ : objects) : objects :=
  let l := fresh (dom (heap σ)) in
  mk_objects (<[l := ∅]> (heap σ)) (Some l).

(** ** Recipients of an outgoing mail *)

(** [a[k]] of a recipient, when it is a dictionary that has the key. *)
Definition recipient_field (k : string) (a : value) : option value :=
  match a with VDict d => d !! k | _ => None end.

(** A recipient the comprehensions of [sendmail] accept. *)
Definition recipient_ok (a : value) : Prop :=
  is_Some (recipient_field "address" a) ∧ is_Some (recipient_field "type" a).

(** [a['type'] == kind] *)
Definition of_type (kind : string) (a : value) : bool :=
  match recipient_field "type" a with
  | Some t => negb (ne_str t kind)
  | None => false
  end.

(** The parsed addresses of a list of recipients, and the calls to
    [mailutils.parse_email] that produce them. *)
Definition addresses (parse : value → value) (rs : list value) : list value :=
  omap (λ a, parse <$> recipient_field "address" a) rs.

Definition parse_events (parse : value → value) (rs : list value) : list event :=
  omap (λ a, (λ addr, Called (ParseEmail addr) (Ok (parse addr)))
               <$> recipient_field "address" a) rs.

Definition is_send X (c : call X) : bool :=
  match c with MakeMsg _ _ _ _ _ _ | SendMail _ _ _ _ => true | _ => false end.

(** ** The application object *)

(** The [Sanic] object [init_app] creates: its identity and the
    configuration [init_app] sets on it. *)
Record application := mk_application {
  app_id : nat;
  app_config : gmap string value
}.

(** The module's global [app], and how many applications were created. *)
Record module_state := mk_module {
  app : option application;
  created : nat
}.

(** The module as it is loaded: [app = None]. *)
Definition loaded : module_state := mk_module None 0.

Definition init_app (s : module_state) : module_state :=
  let a := mk_application (created s)
             {[ "log_config" := VNone; "AUTH_LOGIN_ENDPOINT" := VStr "login" ]} in
  mk_module (Some a) (S (created s)).

Definition get_app (s : module_state) : option application * module_state :=
  let s := match app s with None => init_app s | Some _ => s end in
  (app s, s).

(** [n] calls of [get_app] in a row: what they returned, and the module
    afterwards. *)
Fixpoint get_apps (n : nat) (s : module_state) : list (option application) * module_state :=
  match n with
  | O => ([], s)
  | S n' =>
      let '(a, s1) := get_app s in
      let '(rest, s2) := get_apps n' s1 in
      (a :: rest, s2)
  end.

(** A value that is not a datetime object. *)
Definition no_datetime (k : string) (m : value) : Prop :=
  ∃ x, getitem m k = Ok x ∧ is_datetime x = false.

(** ** More of the small installation *)

(** The mail of [test] as the single-message route returned it. *)
Definition served_mail : value :=
  VDict
    {[ "account" := VStr "test";
       "unread" := VBool true;
       "date" := VStr "2018-05-01T10:00:00";
       "subject" := VStr "hello";
       "attachments" := VList
         [ VDict {[ "index" := VInt 0; "type" := VStr "image/png";
                    "filename" := VStr "file_0.png";
                    "url" := VStr "/api/mail/m2/attachment/0/file_0.png" ]};
           VDict {[ "index" := VInt 1; "type" := VStr "text/x-unknown";
                    "filename" := VStr "notes.txt";
                    "url" := VStr "/api/mail/m2/attachment/1/notes.txt" ]} ] ]}.

(** A storage that answers every fetch of a record with [v]. *)
Definition replay (v : value) : backend :=
  mk_backend (entropy demo_backend)
    (λ X c,
       match c in call X return result X with
       | GetMailboxes _ => Ok v
       | GetMailbox _ => Ok v
       | GetMail _ => Ok v
       | c' => demo_answer _ c'
       end).

(** A request to send the message of the tests, with the cookie of the
    login. *)
Definition send_request : request :=
  mk_request {[ "session_key" := first_key ]} test_message ∅.

(** The two recipients of [test_message]. *)
Definition test_recipients : list value :=
  [ VDict {[ "address" := VStr "alt.n2-75zy2uk@yopmail.com"; "type" := VStr "to" ]};
    VDict {[ "address" := VStr "alt.n2-75zy2uk@yopmail.com"; "type" := VStr "cc" ]} ].

(** A request to send a mail that names no recipients. *)
Definition no_recipients : request :=
  mk_request {[ "session_key" := first_key ]}
    (VDict {[ "subject" := VStr "Test mail"; "content" := VStr "Content" ]}) ∅.

(** ** Facts about [run] *)

Lemma run_bind {A B} (M : model) (p : prog A) (f : A → prog B) w :
  run M (p ≫= f) w =
    match run M p w with
    | (Ok a, w', t) => let '(r, w'', t') := run M (f a) w' in (r, w'', (t ++ t')%list)
    | (Exn e, w', t) => (Exn e, w', t)
    end.
Proof.
  unfold mbind, prog_bind. revert w.
  induction p as [a|e|X o k IH|X c k IH]; intros w; simpl.
  - by destruct (run M (f a) w) as [[r w''] t'].
  - done.
  - destruct (obj_step o w.1) as [x σ]. apply IH.
  - destruct (step M X c w) as [r w']. rewrite IH.
    destruct (run M (k r) w') as [[[a|e] w''] t]; simpl; [|done].
    by destruct (run M (f a) w'') as [[r' w3] t'].
Qed.

Lemma run_lift {A} (M : model) (r : result A) w :
  run M (lift r) w = (r, w, []).
Proof. by destruct r. Qed.

Lemma run_await {X} (M : model) (c : call X) w :
  run M (await c) w = ((step M X c w).1, (step M X c w).2, [Called c (step M X c w).1]).
Proof.
  unfold await. simpl. destruct (step M X c w) as [r w']. simpl.
  by rewrite run_lift.
Qed.

Lemma run_obj {X} (M : model) (o : objop X) w :
  run M (obj o) w = (Ok (obj_step o w.1).1, ((obj_step o w.1).2, w.2), []).
Proof. unfold obj. simpl. by destruct (obj_step o w.1). Qed.

Lemma run_catch {A} (M : model) (p : prog A) (h : exn → prog A) w :
  run M (catch p h) w =
    match run M p w with
    | (Ok a, w', t) => (Ok a, w', t)
    | (Exn e, w', t) => let '(r, w'', t') := run M (h e) w' in (r, w'', (t ++ t')%list)
    end.
Proof.
  revert w. induction p as [a|e|X o k IH|X c k IH]; intros w; simpl.
  - done.
  - by destruct (run M (h e) w) as [[r w''] t'].
  - destruct (obj_step o w.1) as [x σ]. apply IH.
  - destruct (step M X c w) as [r w']. rewrite IH.
    destruct (run M (k r) w') as [[[a|e] w''] t]; simpl; [done|].
    by destruct (run M (h e) w'') as [[r' w3] t'].
Qed.

(** ** The decorator *)

Section Decorator.
Context `{E : Env}.

(** [login_required] runs the route on the user [current_user] finds and
    raises [Forbidden] through [handle_no_auth] when it finds none. *)
Lemma run_login_required (M : model) route req w :
  run M (login_required route req) w =
    match run M current_user w with
    | (Ok (Some u), w', t) =>
        let '(r, w'', t') := run M (route req u) w' in (r, w'', (t ++ t')%list)
    | (Ok None, w', t) =>
        (Exn (Forbidden "This route need authentification"), w', t)
    | (Exn e, w', t) => (Exn e, w', t)
    end.
Proof.
  unfold login_required. rewrite run_bind.
  destruct (run M current_user w) as [[[[u|]|e] w'] t]; simpl; try done.
  by rewrite app_nil_r.
Qed.

(** [current_user] asks [account_manager.get] at most once and nothing
    else. *)
Lemma current_user_calls (M : model) w :
  match trace (run M current_user w) with
  | [] | [Called (AccountGet _) _] => True
  | _ => False
  end.
Proof.
  unfold current_user, get_session, trace. simpl.
  destruct (session_slot w.1) as [l|]; simpl; [|done].
  destruct (heap w.1 !! l ≫= _) as [token|]; simpl; [|done].
  destruct token; simpl; try done;
    match goal with |- context [step M _ ?c ?w0] => destruct (step M _ c w0) as [[?|?] ?] end;
    done.
Qed.

Lemma current_user_no_storage (M : model) w :
  Forall (λ e, is_storage_call e = false) (trace (run M current_user w)).
Proof.
  pose proof (current_user_calls M w) as H.
  destruct (trace (run M current_user w)) as [|[X c r] [|]]; [constructor| |].
  - destruct c; try done. by repeat constructor.
  - by destruct c.
Qed.

(** A request without a valid authenticated session has no current user. *)
Lemma no_valid_session_user (M : model) w :
  no_valid_session M w → outcome (run M current_user w) = Ok None.
Proof.
  destruct w as [σ st].
  intros (l & Hslot & Htok). unfold current_user, get_session, outcome. simpl in *.
  rewrite Hslot. simpl.
  destruct (heap σ !! l ≫= _) as [token|]; simpl; [|done].
  destruct token; simpl in *; try done;
    match goal with |- context [step M _ ?c ?w0] => destruct (step M _ c w0) as [r ?] end;
    simpl in Htok; by rewrite Htok.
Qed.

End Decorator.

(** ** The JSON responses *)

Section Encoding.
Context `{E : Env}.

Lemma json_accepted v : dumps_raises v = None → json v = Ok (json_response v).
Proof. unfold json. by intros ->. Qed.

Lemma json_refused v e : dumps_raises v = Some e → json v = Exn e.
Proof. unfold json. by intros ->. Qed.

Lemma json_inv v resp :
  json v = Ok resp → resp = json_response v ∧ dumps_raises v = None.
Proof. unfold json. destruct (dumps_raises v); [discriminate|]. by intros [= <-]. Qed.

Lemma json_empty_list : json (VList []) = Ok (json_response (VList [])).
Proof. apply json_accepted, dumps_empty_list. Qed.

Lemma json_ok : json (VStr "Ok") = Ok (json_response (VStr "Ok")).
Proof. apply json_accepted, dumps_ok. Qed.

End Encoding.

(** ** Properties of the routes *)

Section Routes.
Context `{E : Env}.

(** C4. Authentication and authorization failures surface as [Forbidden]
    and as nothing else: [login] raises [Forbidden] when
    [account_manager.authenticate] finds no account for the credentials,
    and every session-protected route raises [Forbidden] when the request
    has no valid authenticated session. *)
Theorem auth_failures_are_forbidden (M : model) (req : request) w :
  (∀ w', step M _ (Authenticate (json_body req)) w = (Ok None, w') →
     outcome (run M (login req) w)
     = Exn (Forbidden "Authentification failed. Check your credentials."))
  ∧ (∀ r, session_protected r = true → no_valid_session M w →
     outcome (run M (dispatch r req) w)
     = Exn (Forbidden "This route need authentification")).
Proof.
  split.
  - intros w' Hauth. unfold login, outcome. simpl. by rewrite Hauth.
  - intros r Hr Hno. apply no_valid_session_user in Hno.
    assert (∀ route, outcome (run M (login_required route req) w)
                     = Exn (Forbidden "This route need authentification")) as H.
    { intros route. rewrite run_login_required. unfold outcome in *.
      destruct (run M current_user w) as [[[[u|]|e] w'] t]; simpl in *; congruence. }
    destruct r; simpl in Hr; try discriminate; apply H.
Qed.

(** C8. A contact search whose [text] parameter is absent or empty answers
    with the empty list and makes no call to the storage: the only call of
    the request is the decorator's [account_manager.get]. *)
Theorem contacts_search_blank (M : model) (req : request) (acct : account) w w' t :
  args req !! "text" = None ∨ args req !! "text" = Some "" →
  run M current_user w = (Ok (Some acct), w', t) →
  run M (dispatch RContactsSearch req) w = (Ok (json_response (VList [])), w', t)
  ∧ Forall (λ e, is_storage_call e = false) t
  ∧ Forall (λ e, is_contacts_search e = false) t.
Proof.
  intros Htext Huser.
  change (dispatch RContactsSearch req) with (login_required contacts_search req).
  rewrite run_login_required, Huser.
  pose proof (current_user_no_storage M w) as Hst.
  rewrite Huser in Hst. unfold trace in Hst. simpl in Hst.
  split; [|split; [done|]].
  - unfold contacts_search.
    destruct Htext as [-> | ->]; simpl; rewrite json_empty_list; simpl;
      by rewrite app_nil_r.
  - eapply Forall_impl; [exact Hst|]. intros [X c r]. by destruct c.
Qed.

(** C6, as amended.  When the stored mail belongs to the caller,
    [mail_mark_read] sets its [unread] field to [False] and hands the
    updated mail to [storage.update_mail]; it then returns the updated mail
    as the JSON body when the encoder accepts it, and raises what the
    encoder raises when it refuses it, the mail being persisted in both
    cases. *)
Theorem mark_read_clears_unread (M : model) (mail_id : string) (req : request)
    (acct : account) (d : gmap string value) w w1 w2 :
  step M _ (GetMail mail_id) w = (Ok (VDict d), w1) →
  d !! "account" = Some (VStr (name acct)) →
  step M _ (UpdateMail (VDict (<["unread" := VBool false]> d))) w1 = (Ok tt, w2) →
  let updated := VDict (<["unread" := VBool false]> d) in
  let calls := [Called (GetMail mail_id) (Ok (VDict d));
                Called (UpdateMail updated) (Ok tt)] in
  getitem updated "unread" = Ok (VBool false)
  ∧ (dumps_raises updated = None →
     run M (mail_mark_read mail_id req acct) w = (Ok (json_response updated), w2, calls))
  ∧ (∀ e, dumps_raises updated = Some e →
     run M (mail_mark_read mail_id req acct) w = (Exn e, w2, calls)).
Proof.
  intros Hget Hown Hupd updated calls.
  assert (run M (mail_mark_read mail_id req acct) w = (json updated, w2, calls)) as Hrun.
  { unfold mail_mark_read. simpl. rewrite Hget. simpl. rewrite Hown. simpl.
    rewrite String.eqb_refl. simpl. rewrite Hupd. fold updated.
    by destruct (json updated). }
  split; [simpl; by rewrite lookup_insert_eq|]. split.
  - intros Hacc. by rewrite Hrun, json_accepted.
  - intros e Href. by rewrite Hrun, (json_refused _ e).
Qed.

(** C9. Marking a mail read changes its [unread] field only: whatever
    [mail_mark_read] hands to [storage.update_mail] or returns is a
    dictionary that agrees with the fetched mail on every other field. *)
Theorem mark_read_frame (M : model) (mail_id : string) (req : request)
    (acct : account) (m : value) w :
  (step M _ (GetMail mail_id) w).1 = Ok m →
  ∀ m', In m' (updated_mails (trace (run M (mail_mark_read mail_id req acct) w)))
        ∨ outcome (run M (mail_mark_read mail_id req acct) w) = Ok (json_response m') →
    ∃ d d', m = VDict d ∧ m' = VDict d' ∧ ∀ k, k ≠ "unread" → d' !! k = d !! k.
Proof.
  unfold mail_mark_read, trace, outcome. simpl.
  destruct (step M _ (GetMail mail_id) w) as [r w1]. simpl. intros -> m'.
  destruct m as [| | | | | | |d]; simpl; try (intros [[]|]; discriminate).
  destruct (d !! "account") as [owner|]; simpl; [|intros [[]|]; discriminate].
  destruct (ne_str owner (name acct)); simpl; [intros [[]|]; discriminate|].
  destruct (step M _ (UpdateMail _) w1) as [[[]|e] w2]; simpl;
    [unfold json; destruct (dumps_raises _); simpl|];
    (intros [[<-|[]]|Hret]; [|try discriminate Hret; injection Hret as <-]);
    exists d, (<["unread" := VBool false]> d); repeat split;
    intros k Hk; by rewrite lookup_insert_ne.
Qed.

End Routes.

(** ** Loops over the elements of a list *)

Lemma for_each_Forall2 {A B} (f : A → result B) (R : A → B → Prop) l l' :
  (∀ x y, f x = Ok y → R x y) → for_each f l = Ok l' → Forall2 R l l'.
Proof.
  intros Hf. revert l'. induction l as [|x l IH]; simpl; intros l' Hl.
  - injection Hl as <-. constructor.
  - destruct (f x) as [y|e] eqn:Hx; simpl in Hl; [|discriminate].
    destruct (for_each f l) as [ys|e]; simpl in Hl; [|discriminate].
    injection Hl as <-. constructor; auto.
Qed.

Lemma for_each_returns {A B} (f : A → result B) l :
  Forall (λ x, ∃ y, f x = Ok y) l → ∃ l', for_each f l = Ok l'.
Proof.
  induction 1 as [|x l [y Hy] _ [ys Hys]]; simpl.
  - by eexists.
  - rewrite Hy. simpl. rewrite Hys. simpl. by eexists.
Qed.

(** ** Timestamps *)

Section Timestamps.
Context `{E : Env}.

Lemma reshape_datetime_spec k m m' :
  reshape_datetime k m = Ok m' → entry_reshaped k m m'.
Proof.
  unfold reshape_datetime, entry_reshaped, field_reshaped.
  destruct m as [| | | | | | |d]; simpl; try discriminate.
  destruct (d !! k) as [x|] eqn:Hk; simpl; [|discriminate].
  intros Hm'. exists d.
  destruct x; simpl in Hm'; injection Hm' as <-; eexists;
    (do 2 (split; [done|])); rewrite Hk; (split; [by eexists|]);
    try (split; [done|done]).
  split; [by rewrite lookup_insert_eq|].
  intros j Hj. by rewrite lookup_insert_ne.
Qed.

Lemma reshape_datetime_returns k m :
  has_field k m → ∃ m', reshape_datetime k m = Ok m'.
Proof.
  intros (d & -> & x & Hx). unfold reshape_datetime. simpl. rewrite Hx. simpl.
  destruct x; simpl; by eexists.
Qed.

Lemma reshape_all_spec k v v' ms :
  for_in_place (reshape_datetime k) v = Ok v' → v = VList ms →
  ∃ ms', v' = VList ms' ∧ Forall2 (entry_reshaped k) ms ms'.
Proof.
  intros Hv ->. simpl in Hv.
  destruct (for_each (reshape_datetime k) ms) as [ms'|e] eqn:Hms; [|discriminate].
  injection Hv as <-. exists ms'. split; [done|].
  eapply for_each_Forall2; [|exact Hms]. apply reshape_datetime_spec.
Qed.

Lemma reshape_all_returns k ms :
  Forall (has_field k) ms →
  ∃ ms', for_in_place (reshape_datetime k) (VList ms) = Ok (VList ms').
Proof.
  intros Hms. destruct (for_each_returns (reshape_datetime k) ms) as [ms' Hms'].
  { eapply Forall_impl; [exact Hms|]. apply reshape_datetime_returns. }
  exists ms'. simpl. by rewrite Hms'.
Qed.

End Timestamps.
Lemma ne_str_false v s : ne_str v s = false → v = VStr s.
Proof.
  destruct v; simpl; try discriminate.
  intros H. apply negb_false_iff, String.eqb_eq in H. by subst.
Qed.

Section Inversion.
Context `{E : Env}.

Lemma mailboxes_inv (M : model) req acct w v resp :
  (step M _ (GetMailboxes acct) w).1 = Ok v →
  outcome (run M (mailboxes req acct) w) = Ok resp →
  ∃ v', for_in_place (reshape_datetime "last_message") v = Ok v'
        ∧ resp = json_response v' ∧ dumps_raises v' = None.
Proof.
  unfold mailboxes, outcome. simpl.
  destruct (step M _ (GetMailboxes acct) w) as [r w1]. simpl. intros ->. simpl.
  destruct (for_in_place _ v) as [v'|e]; simpl; [|discriminate].
  destruct (json v') as [resp'|e] eqn:Hjson; simpl; [|discriminate].
  intros [= <-]. exists v'. split; [done|]. by apply json_inv.
Qed.

Lemma mailbox_inv (M : model) mailbox_id req acct w m resp :
  (step M _ (GetMailbox mailbox_id) w).1 = Ok m →
  outcome (run M (mailbox mailbox_id req acct) w) = Ok resp →
  ∃ d msgs msgs', m = VDict d ∧ d !! "account" = Some (VStr (name acct)) ∧
    d !! "messages" = Some msgs ∧
    for_in_place (reshape_datetime "date") msgs = Ok msgs' ∧
    resp = json_response (VDict (<["messages" := msgs']> d)) ∧
    dumps_raises (VDict (<["messages" := msgs']> d)) = None.
Proof.
  unfold mailbox, outcome. simpl.
  destruct (step M _ (GetMailbox mailbox_id) w) as [r w1]. simpl. intros ->.
  destruct m as [| | | | | | |d]; simpl; try discriminate.
  destruct (d !! "account") as [owner|] eqn:Hown; simpl; [|discriminate].
  destruct (ne_str owner (name acct)) eqn:Hne; simpl; [discriminate|].
  apply ne_str_false in Hne as ->.
  destruct (d !! "messages") as [msgs|] eqn:Hmsgs; simpl; [|discriminate].
  destruct (for_in_place _ msgs) as [msgs'|e] eqn:Hfor; simpl; [|discriminate].
  destruct (json _) as [resp'|e] eqn:Hjson; simpl; [|discriminate].
  intros [= <-]. exists d, msgs, msgs'. do 4 (split; [done|]). by apply json_inv.
Qed.

Lemma mail_inv (M : model) mail_id req acct w m resp :
  (step M _ (GetMail mail_id) w).1 = Ok m →
  outcome (run M (mail mail_id req acct) w) = Ok resp →
  ∃ d d1 atts atts', m = VDict d ∧ d !! "account" = Some (VStr (name acct)) ∧
    reshape_datetime "date" (VDict d) = Ok (VDict d1) ∧
    d1 !! "attachments" = Some atts ∧
    for_in_place (name_attachment mail_id) atts = Ok atts' ∧
    resp = json_response (VDict (<["attachments" := atts']> d1)) ∧
    dumps_raises (VDict (<["attachments" := atts']> d1)) = None.
Proof.
  unfold mail, outcome. simpl.
  destruct (step M _ (GetMail mail_id) w) as [r w1]. simpl. intros ->.
  destruct m as [| | | | | | |d]; simpl; try discriminate.
  destruct (d !! "account") as [owner|] eqn:Hown; simpl; [|discriminate].
  destruct (ne_str owner (name acct)) eqn:Hne; simpl; [discriminate|].
  apply ne_str_false in Hne as ->.
  destruct (reshape_datetime "date" (VDict d)) as [m1|e] eqn:Hdate; simpl; [|discriminate].
  destruct (reshape_datetime_spec _ _ _ Hdate) as (d0 & d1 & [= <-] & -> & _).
  simpl.
  destruct (d1 !! "attachments") as [atts|] eqn:Hatts; simpl; [|discriminate].
  destruct (for_in_place _ atts) as [atts'|e] eqn:Hfor; simpl; [|discriminate].
  destruct (json _) as [resp'|e] eqn:Hjson; simpl; [|discriminate].
  intros [= <-]. exists d, d1, atts, atts'. do 5 (split; [done|]). by apply json_inv.
Qed.
End Inversion.

(** ** Attachments *)

Section Attachments.
Context `{E : Env}.

Lemma guessed_default_extension type guessed :
  guess_extension_of type = Ok guessed →
  match guessed with
  | Some e => if negb (String.eqb e "") then e else ".bin"
  | None => ".bin"
  end = default_extension type.
Proof.
  destruct type; simpl; try discriminate; intros [= <-]; [|done].
  destruct (guess_extension s) as [e|]; [|done]. simpl.
  by destruct (String.eqb e "").
Qed.

Lemma name_attachment_spec mail_id att att' :
  name_attachment mail_id att = Ok att' → attachment_named mail_id att att'.
Proof.
  unfold name_attachment, attachment_named.
  destruct att as [| | | | | | |a]; simpl; try discriminate.
  destruct (truthy (default VNone (a !! "filename"))) eqn:Htr; simpl.
  - destruct (a !! "index") as [idx|] eqn:Hidx; simpl; [|discriminate].
    destruct (a !! "filename") as [f|] eqn:Hf; simpl in *; [|discriminate].
    intros [= <-]. eexists a, _, idx, f.
    split; [done|]. split; [done|]. split; [done|].
    split; [by rewrite lookup_insert_ne|]. split; [by rewrite Hf|].
    split; [by rewrite lookup_insert_eq|].
    intros k _ Hk. by rewrite lookup_insert_ne.
  - destruct (a !! "type") as [type|] eqn:Hty; simpl; [|discriminate].
    destruct (guess_extension_of type) as [guessed|e] eqn:Hg; simpl; [|discriminate].
    apply guessed_default_extension in Hg. rewrite Hg.
    destruct (a !! "index") as [idx|] eqn:Hidx; simpl; [|discriminate].
    rewrite (lookup_insert_ne _ "filename" "index"), Hidx by done. simpl.
    rewrite lookup_insert_eq. simpl.
    intros [= <-]. eexists a, _, idx, _.
    split; [done|]. split; [done|]. split; [done|].
    split; [by rewrite lookup_insert_ne, lookup_insert_eq|].
    split.
    { destruct (a !! "filename") as [f|]; simpl in *.
      - intros Hf. congruence.
      - by exists type. }
    split; [by rewrite lookup_insert_eq|].
    intros k Hk1 Hk2. by rewrite !lookup_insert_ne.
Qed.

Lemma name_attachment_returns mail_id att :
  nameable att → ∃ att', name_attachment mail_id att = Ok att'.
Proof.
  intros (a & -> & [idx Hidx] & Hty). unfold name_attachment. simpl.
  destruct (truthy (default VNone (a !! "filename"))) eqn:Htr; simpl.
  - rewrite Hidx. simpl.
    destruct (a !! "filename") as [f|]; simpl in *; [|discriminate].
    by eexists.
  - destruct Hty as (type & Hty & Hlower); [done|]. rewrite Hty. simpl.
    assert (∃ g, guess_extension_of type = Ok g) as [g ->]
      by (destruct type; simpl in *; try done; by eexists).
    simpl. rewrite Hidx. simpl.
    rewrite (lookup_insert_ne _ "filename" "index"), Hidx by done. simpl.
    rewrite lookup_insert_eq. simpl. by eexists.
Qed.

Lemma name_all_spec mail_id atts v' :
  for_in_place (name_attachment mail_id) (VList atts) = Ok v' →
  ∃ atts', v' = VList atts' ∧ Forall2 (attachment_named mail_id) atts atts'.
Proof.
  simpl. intros Hv.
  destruct (for_each (name_attachment mail_id) atts) as [atts'|e] eqn:Hatts; [|discriminate].
  injection Hv as <-. exists atts'. split; [done|].
  eapply for_each_Forall2; [|exact Hatts]. apply name_attachment_spec.
Qed.

Lemma name_all_returns mail_id atts :
  Forall nameable atts →
  ∃ atts', for_in_place (name_attachment mail_id) (VList atts) = Ok (VList atts').
Proof.
  intros Hatts.
  destruct (for_each_returns (name_attachment mail_id) atts) as [atts' Hatts'].
  { eapply Forall_impl; [exact Hatts|]. apply name_attachment_returns. }
  exists atts'. simpl. by rewrite Hatts'.
Qed.

End Attachments.

(** ** The listing routes reach their response on well-formed records *)

Section Listings.
Context `{E : Env}.

Lemma mailboxes_returns (M : model) req acct w ms :
  (step M _ (GetMailboxes acct) w).1 = Ok (VList ms) →
  Forall (has_field "last_message") ms →
  ∃ ms', for_in_place (reshape_datetime "last_message") (VList ms) = Ok (VList ms')
         ∧ outcome (run M (mailboxes req acct) w) = json (VList ms').
Proof.
  intros Hget Hms. destruct (reshape_all_returns "last_message" ms Hms) as [ms' Hms'].
  exists ms'. split; [done|]. unfold mailboxes, outcome. simpl.
  destruct (step M _ (GetMailboxes acct) w) as [r w1]. simpl in *. subst r.
  simpl. simpl in Hms'.
  destruct (for_each _ ms) as [l|e]; simpl in *; [|discriminate].
  injection Hms' as <-. by destruct (json _).
Qed.

Lemma mailbox_returns (M : model) mailbox_id req acct w d ms :
  (step M _ (GetMailbox mailbox_id) w).1 = Ok (VDict d) →
  d !! "account" = Some (VStr (name acct)) →
  d !! "messages" = Some (VList ms) →
  Forall (has_field "date") ms →
  ∃ ms', for_in_place (reshape_datetime "date") (VList ms) = Ok (VList ms')
         ∧ outcome (run M (mailbox mailbox_id req acct) w)
           = json (VDict (<["messages" := VList ms']> d)).
Proof.
  intros Hget Hown Hmsgs Hms.
  destruct (reshape_all_returns "date" ms Hms) as [ms' Hms'].
  exists ms'. split; [done|]. unfold mailbox, outcome. simpl.
  destruct (step M _ (GetMailbox mailbox_id) w) as [r w1]. simpl in *. subst r.
  simpl. rewrite Hown. simpl. rewrite String.eqb_refl. simpl.
  rewrite Hmsgs. simpl.
  destruct (for_each _ ms) as [l|e]; simpl in *; [|discriminate].
  injection Hms' as <-. by destruct (json _).
Qed.

Lemma mail_returns (M : model) mail_id req acct w d atts :
  (step M _ (GetMail mail_id) w).1 = Ok (VDict d) →
  d !! "account" = Some (VStr (name acct)) →
  is_Some (d !! "date") →
  d !! "attachments" = Some (VList atts) →
  Forall nameable atts →
  ∃ d1 atts', reshape_datetime "date" (VDict d) = Ok (VDict d1)
    ∧ for_in_place (name_attachment mail_id) (VList atts) = Ok (VList atts')
    ∧ outcome (run M (mail mail_id req acct) w)
      = json (VDict (<["attachments" := VList atts']> d1)).
Proof.
  intros Hget Hown Hdate Hatts Hnameable.
  destruct (reshape_datetime_returns "date" (VDict d)) as [m1 Hm1]; [by exists d|].
  destruct (reshape_datetime_spec _ _ _ Hm1) as (d0 & d1 & [= <-] & -> & _ & _ & Hframe).
  destruct (name_all_returns mail_id atts Hnameable) as [atts' Hatts'].
  exists d1, atts'. split; [done|]. split; [done|].
  assert (d1 !! "attachments" = Some (VList atts)) as Hatts1
    by (by rewrite Hframe).
  unfold mail, outcome. simpl.
  destruct (step M _ (GetMail mail_id) w) as [r w1]. simpl in *. subst r.
  simpl. rewrite Hown. simpl. rewrite String.eqb_refl. simpl.
  rewrite Hm1. simpl. rewrite Hatts1. simpl.
  destruct (for_each _ atts) as [named|err]; simpl in *; [|discriminate].
  injection Hatts' as <-. by destruct (json _).
Qed.

End Listings.

(** ** Timestamps and attachments in the responses *)

Section Responses.
Context `{E : Env}.

(** C7. The handlers reshape timestamps before responding.  In the mailbox
    listing every entry's [last_message], in the contents of a mailbox
    every message's [date], and in a single message its [date] is replaced
    by its ISO-8601 string when it is a datetime and is left as it is
    otherwise; nothing else in an entry changes.  On records that have the
    field each handler gets as far as its response: what it hands to
    [json] is the reshaped record, so it responds unless the encoder
    refuses that. *)
Theorem timestamps_reshaped (M : model) (req : request) (acct : account) w :
  (∀ ms, (step M _ (GetMailboxes acct) w).1 = Ok (VList ms) →
     (Forall (has_field "last_message") ms →
      ∃ ms', Forall2 (entry_reshaped "last_message") ms ms' ∧
             outcome (run M (mailboxes req acct) w) = json (VList ms')) ∧
     (∀ resp, outcome (run M (mailboxes req acct) w) = Ok resp →
      ∃ ms', resp = json_response (VList ms') ∧
             Forall2 (entry_reshaped "last_message") ms ms'))
  ∧ (∀ mailbox_id d ms,
     (step M _ (GetMailbox mailbox_id) w).1 = Ok (VDict d) →
     d !! "messages" = Some (VList ms) →
     (d !! "account" = Some (VStr (name acct)) → Forall (has_field "date") ms →
      ∃ ms', Forall2 (entry_reshaped "date") ms ms' ∧
             outcome (run M (mailbox mailbox_id req acct) w)
             = json (VDict (<["messages" := VList ms']> d))) ∧
     (∀ resp, outcome (run M (mailbox mailbox_id req acct) w) = Ok resp →
      ∃ ms', resp = json_response (VDict (<["messages" := VList ms']> d)) ∧
             Forall2 (entry_reshaped "date") ms ms'))
  ∧ (∀ mail_id d atts,
     (step M _ (GetMail mail_id) w).1 = Ok (VDict d) →
     (d !! "account" = Some (VStr (name acct)) → is_Some (d !! "date") →
      d !! "attachments" = Some (VList atts) → Forall nameable atts →
      ∃ d', field_reshaped "date" d d' ∧
            outcome (run M (mail mail_id req acct) w) = json (VDict d')) ∧
     (∀ resp, outcome (run M (mail mail_id req acct) w) = Ok resp →
      ∃ d', resp = json_response (VDict d') ∧ field_reshaped "date" d d')).
Proof.
  split; [|split].
  - intros ms Hget. split.
    + intros Hms.
      destruct (mailboxes_returns M req acct w ms Hget Hms) as (ms' & Hfor & Hout).
      destruct (reshape_all_spec _ _ _ ms Hfor eq_refl) as (ms0 & [= <-] & Hall).
      by exists ms'.
    + intros resp Hresp.
      destruct (mailboxes_inv M req acct w _ resp Hget Hresp) as (v' & Hv' & -> & _).
      destruct (reshape_all_spec _ _ _ ms Hv' eq_refl) as (ms' & -> & Hall).
      by exists ms'.
  - intros mailbox_id d ms Hget Hmsgs. split.
    + intros Hown Hms.
      destruct (mailbox_returns M mailbox_id req acct w d ms Hget Hown Hmsgs Hms)
        as (ms' & Hfor & Hout).
      destruct (reshape_all_spec _ _ _ ms Hfor eq_refl) as (ms0 & [= <-] & Hall).
      by exists ms'.
    + intros resp Hresp.
      destruct (mailbox_inv M mailbox_id req acct w _ resp Hget Hresp)
        as (d0 & msgs & msgs' & [= <-] & _ & Hmsgs0 & Hfor & -> & _).
      rewrite Hmsgs in Hmsgs0. injection Hmsgs0 as <-.
      destruct (reshape_all_spec _ _ _ ms Hfor eq_refl) as (ms' & -> & Hall).
      by exists ms'.
  - intros mail_id d atts Hget. split.
    + intros Hown Hdate Hatts Hnameable.
      destruct (mail_returns M mail_id req acct w d atts Hget Hown Hdate Hatts Hnameable)
        as (d1 & atts' & Hm1 & _ & Hout).
      destruct (reshape_datetime_spec _ _ _ Hm1)
        as (d0 & d2 & [= <-] & [= <-] & _ & Hfield & _).
      eexists. split; [|exact Hout].
      unfold field_reshaped in *. rewrite lookup_insert_ne by done. exact Hfield.
    + intros resp Hresp.
      destruct (mail_inv M mail_id req acct w _ resp Hget Hresp)
        as (d0 & d1 & atts0 & atts' & [= <-] & _ & Hdate & _ & _ & -> & _).
      destruct (reshape_datetime_spec _ _ _ Hdate)
        as (d0 & d2 & [= <-] & [= <-] & _ & Hfield & _).
      eexists. split; [done|].
      unfold field_reshaped in *. rewrite lookup_insert_ne by done. exact Hfield.
Qed.

(** C10. In the single-message response every attachment that came without
    a [filename] is named [file_{index}{ext}], with the extension guessed
    from its [type] or [.bin] when none can be guessed, and every
    attachment carries the [url]
    [/api/mail/{mail_id}/attachment/{index}/{filename}] of its final file
    name.  When the mail is the caller's and its attachments have an index
    and, if unnamed, a type, the handler gets as far as its response: what
    it hands to [json] is the mail with the named attachments, so it
    responds unless the encoder refuses that. *)
Theorem attachments_named (M : model) (mail_id : string) (req : request)
    (acct : account) (d : gmap string value) (atts : list value) w :
  (step M _ (GetMail mail_id) w).1 = Ok (VDict d) →
  d !! "attachments" = Some (VList atts) →
  (d !! "account" = Some (VStr (name acct)) → is_Some (d !! "date") →
   Forall nameable atts →
   ∃ d' atts', outcome (run M (mail mail_id req acct) w) = json (VDict d') ∧
     d' !! "attachments" = Some (VList atts') ∧
     Forall2 (attachment_named mail_id) atts atts')
  ∧ (∀ resp, outcome (run M (mail mail_id req acct) w) = Ok resp →
     ∃ d' atts', resp = json_response (VDict d') ∧
       d' !! "attachments" = Some (VList atts') ∧
       Forall2 (attachment_named mail_id) atts atts').
Proof.
  intros Hget Hatts. split.
  - intros Hown Hdate Hnameable.
    destruct (mail_returns M mail_id req acct w d atts Hget Hown Hdate Hatts Hnameable)
      as (d1 & atts' & _ & Hfor & Hout).
    destruct (name_all_spec _ _ _ Hfor) as (atts0 & [= <-] & Hall).
    exists (<["attachments" := VList atts']> d1), atts'.
    split; [done|]. split; [by rewrite lookup_insert_eq|done].
  - intros resp Hresp.
    destruct (mail_inv M mail_id req acct w _ resp Hget Hresp)
      as (d0 & d1 & atts0 & v' & [= <-] & _ & Hdate & Hatts1 & Hfor & -> & _).
    destruct (reshape_datetime_spec _ _ _ Hdate)
      as (d0 & d2 & [= <-] & [= <-] & _ & _ & Hframe).
    rewrite Hframe, Hatts in Hatts1 by done. injection Hatts1 as <-.
    destruct (name_all_spec _ _ _ Hfor) as (atts' & -> & Hall).
    exists (<["attachments" := VList atts']> d1), atts'.
    split; [done|]. split; [by rewrite lookup_insert_eq|done].
Qed.

End Responses.

(** ** Session keys *)

Lemma length_string_of_list (l : list ascii) :
  String.length (string_of_list_ascii l) = length l.
Proof. induction l; simpl; congruence. Qed.

Lemma length_append (s1 s2 : string) :
  String.length (s1 +:+ s2) = (String.length s1 + String.length s2)%nat.
Proof. induction s1 as [|c s1 IH]; [done|]. simpl. f_equal. exact IH. Qed.

Lemma hex_digits_bound fuel n k :
  0 ≤ n < 16 ^ Z.of_nat (S k) → (length (hex_digits fuel n) ≤ S k)%nat.
Proof.
  revert n k. induction fuel as [|fuel IH]; intros n k Hn; simpl; [lia|].
  destruct (Z.eqb_spec (n / 16) 0) as [|Hq]; simpl; [lia|].
  destruct k as [|k].
  { exfalso. apply Hq. apply Z.div_small. simpl in Hn. lia. }
  apply le_n_S, IH.
  rewrite Nat2Z.inj_succ, Z.pow_succ_r in Hn by lia.
  split; [apply Z.div_pos; lia|]. apply Z.div_lt_upper_bound; lia.
Qed.

Lemma hex_digits_range fuel n :
  Forall (λ d, 0 ≤ d < 16) (hex_digits fuel n).
Proof.
  revert n. induction fuel as [|fuel IH]; intros n; simpl; [constructor|].
  constructor; [apply Z.mod_pos_bound; lia|].
  destruct (Z.eqb (n / 16) 0); [constructor|apply IH].
Qed.

Lemma hex_digits_value fuel n :
  0 ≤ n < 16 ^ Z.of_nat fuel → digits_value (hex_digits fuel n) = n.
Proof.
  revert n. induction fuel as [|fuel IH]; intros n Hn; simpl.
  - simpl in Hn. lia.
  - destruct (Z.eqb_spec (n / 16) 0) as [Hq|Hq]; simpl.
    + pose proof (Z.div_mod n 16). lia.
    + unfold digits_value in IH. rewrite IH.
      * pose proof (Z.div_mod n 16). lia.
      * rewrite Nat2Z.inj_succ, Z.pow_succ_r in Hn by lia.
        split; [apply Z.div_pos; lia|]. apply Z.div_lt_upper_bound; lia.
Qed.

Lemma hex_fuel_enough n :
  0 ≤ n → n < 16 ^ Z.of_nat (S (Z.to_nat (Z.log2 n))).
Proof.
  intros Hn. rewrite Nat2Z.inj_succ, Z2Nat.id by apply Z.log2_nonneg.
  destruct (Z.eq_dec n 0) as [->|]; [done|].
  pose proof (Z.log2_spec n ltac:(lia)) as [_ Hlt].
  eapply Z.lt_le_trans; [exact Hlt|].
  change 16 with (2 ^ 4). rewrite <- Z.pow_mul_r by (pose proof (Z.log2_nonneg n); lia).
  apply Z.pow_le_mono_r; pose proof (Z.log2_nonneg n); lia.
Qed.

Lemma hex_value_digit_hex_digit d :
  0 ≤ d < 16 → hex_value_digit (hex_digit d) = Some d.
Proof.
  intros Hd.
  assert (d = 0 ∨ d = 1 ∨ d = 2 ∨ d = 3 ∨ d = 4 ∨ d = 5 ∨ d = 6 ∨ d = 7 ∨ d = 8
          ∨ d = 9 ∨ d = 10 ∨ d = 11 ∨ d = 12 ∨ d = 13 ∨ d = 14 ∨ d = 15) as H by lia.
  repeat (destruct H as [->|H]; [reflexivity|]). by subst.
Qed.

Lemma hex_value_from_digits acc l :
  Forall (λ d, 0 ≤ d < 16) l →
  hex_value_from acc (string_of_list_ascii (hex_digit <$> l))
  = Some (fold_left (λ a d, a * 16 + d) l acc).
Proof.
  intros Hl. revert acc. induction Hl as [|d l Hd _ IH]; intros acc; simpl; [done|].
  rewrite hex_value_digit_hex_digit by done. apply IH.
Qed.

Lemma hex_value_from_zeros k s :
  hex_value_from 0 (string_of_list_ascii (replicate k "0"%char) +:+ s)
  = hex_value_from 0 s.
Proof. induction k; simpl; [done|]. exact IHk. Qed.

Lemma is_hex_digit_hex_digit d : is_hex_digit (hex_digit d) = true.
Proof.
  destruct d as [|p|p]; try reflexivity.
  do 5 (try (destruct p as [p|p|]; try reflexivity)).
Qed.

Lemma hex_length n : 0 ≤ n < 2 ^ 128 → (String.length (hex n) ≤ 32)%nat.
Proof.
  intros Hn. unfold hex.
  rewrite length_string_of_list, length_fmap, length_rev.
  apply (hex_digits_bound _ n 31). simpl. lia.
Qed.

Lemma hex_value_hex n : 0 ≤ n → hex_value (hex n) = Some n.
Proof.
  intros Hn. unfold hex_value, hex.
  rewrite hex_value_from_digits.
  - rewrite <- (fold_left_rev_right (λ d a, a * 16 + d)), rev_involutive.
    f_equal. apply hex_digits_value. split; [done|]. by apply hex_fuel_enough.
  - apply Forall_rev, hex_digits_range.
Qed.

Lemma uuid_hex_length i : 0 ≤ i < 2 ^ 128 → String.length (uuid_hex i) = 32%nat.
Proof.
  intros Hi. pose proof (hex_length i Hi). unfold uuid_hex, zero_pad.
  rewrite length_append, length_string_of_list, length_replicate. lia.
Qed.

Lemma uuid_hex_value i : 0 ≤ i → hex_value (uuid_hex i) = Some i.
Proof.
  intros Hi. unfold uuid_hex, zero_pad, hex_value.
  rewrite hex_value_from_zeros. by apply hex_value_hex.
Qed.

Lemma uuid4_range random : 0 ≤ random < 2 ^ 128 → 0 ≤ uuid4 random < 2 ^ 128.
Proof.
  intros Hr. unfold uuid4.
  assert (0 ≤ Z.lor (Z.land (Z.lor (Z.land random (Z.lnot (Z.shiftl 49152 48)))
                                  (Z.shiftl 32768 48))
                           (Z.lnot (Z.shiftl 61440 64)))
                    (Z.shiftl 4 76)) as Hnn.
  { apply Z.lor_nonneg. split; [|done].
    apply Z.land_nonneg. left. apply Z.lor_nonneg. split; [|done].
    apply Z.land_nonneg. left. lia. }
  split; [exact Hnn|].
  apply (Z.bounded_iff_bits_nonneg 128); [lia|exact Hnn|].
  intros l Hl.
  rewrite Z.lor_spec, Z.land_spec, Z.lor_spec, Z.land_spec.
  assert (Z.testbit random l = false) as ->
    by (apply (Z.bounded_iff_bits_nonneg 128); lia).
  assert (Z.testbit (Z.shiftl 32768 48) l = false) as ->
    by (apply (Z.bounded_iff_bits_nonneg 128); [lia|done|done|lia]).
  assert (Z.testbit (Z.shiftl 4 76) l = false) as ->
    by (apply (Z.bounded_iff_bits_nonneg 128); [lia|done|done|lia]).
  done.
Qed.


Lemma list_ascii_of_append (s1 s2 : string) :
  list_ascii_of_string (s1 +:+ s2)
  = (list_ascii_of_string s1 ++ list_ascii_of_string s2)%list.
Proof. induction s1 as [|c s1 IH]; [done|]. simpl. f_equal. exact IH. Qed.

Lemma uuid_hex_digits i :
  Forall (λ c, is_hex_digit c = true) (list_ascii_of_string (uuid_hex i)).
Proof.
  unfold uuid_hex, zero_pad, hex.
  rewrite list_ascii_of_append, !list_ascii_of_string_of_list_ascii.
  apply Forall_app. split.
  - apply Forall_replicate. reflexivity.
  - apply Forall_fmap, Forall_forall. intros d _. apply is_hex_digit_hex_digit.
Qed.

(** ** Sessions *)

(** C3, as amended.  A request without a [session_key] cookie, or with an
    empty one, gets a new empty dictionary as its session and the storage
    is not asked; a request with a non-empty [session_key] cookie gets the
    session the storage hands out for that key; and a generated session
    token is a 128-bit value written as 32 hexadecimal digits. *)
Theorem session_of_request (M : model) (req : request) w :
  (cookies req !! "session_key" = None ∨ cookies req !! "session_key" = Some "" →
   ∃ l, heap w.1 !! l = None ∧
     run M (add_session_to_request req) w
     = (Ok tt, (mk_objects (<[l := ∅]> (heap w.1)) (Some l), w.2), []))
  ∧ (∀ key l w', cookies req !! "session_key" = Some key → key ≠ "" →
     step M _ (GetUserSession key) w = (Ok l, w') →
     run M (add_session_to_request req) w
     = (Ok tt, (mk_objects (heap w'.1) (Some l), w'.2),
        [Called (GetUserSession key) (Ok l)]))
  ∧ (∀ random w', step M _ Urandom16 w = (Ok random, w') → 0 ≤ random < 2 ^ 128 →
     ∃ token i, run M gen_session_key w = (Ok token, w', [Called Urandom16 (Ok random)]) ∧
       0 ≤ i < 2 ^ 128 ∧ hex_value token = Some i ∧
       String.length token = 32%nat ∧
       Forall (λ c, is_hex_digit c = true) (list_ascii_of_string token)).
Proof.
  split; [|split].
  - intros Hc. exists (fresh (dom (heap w.1))). split.
    + apply not_elem_of_dom, is_fresh.
    + unfold add_session_to_request. by destruct Hc as [-> | ->].
  - intros key l w' Hc Hkey Hget. unfold add_session_to_request. rewrite Hc. simpl.
    destruct (String.eqb_spec key "") as [|_]; [done|]. simpl.
    rewrite Hget. simpl. by destruct w'.
  - intros random w' Hrand Hrange. exists (uuid_hex (uuid4 random)), (uuid4 random).
    pose proof (uuid4_range random Hrange) as Hi.
    split; [|split; [done|split; [|split]]].
    + unfold gen_session_key. simpl. by rewrite Hrand.
    + apply uuid_hex_value. lia.
    + by apply uuid_hex_length.
    + apply uuid_hex_digits.
Qed.

(** C3, as stated, fails on a request whose [session_key] cookie is the
    empty string: the cookie is present, yet the storage is not asked for
    the session of that key.  The request middleware makes no call at
    all, here from the server as it starts; by the amended statement above
    this is so for every model of the collaborators and every state. *)
Lemma empty_session_key_not_looked_up :
  ¬ (∀ (M : model) (w : objects * state M) (req : request) key,
       cookies req !! "session_key" = Some key →
       ∃ r, In (Called (GetUserSession key) r)
               (trace (run M (add_session_to_request req) w))).
Proof.
  intros H. destruct (H demo start (with_cookie "") "" eq_refl) as [r Hin].
  vm_compute in Hin. exact Hin.
Qed.

(** ** Login and logout *)

Section Login.
Context `{E : Env}.

(** C5. A login with credentials that authenticate generates a session
    key, stores the account's name in the session the storage keeps under
    that key, and answers with the account's profile as JSON body and the
    key as [session_key] cookie.  The answer is [json(account.to_json())]
    with the cookie: what the encoder raises on the profile, if it refuses
    it, is raised after the session has been stored. *)
Theorem login_opens_session (B : backend) (req : request) (acct : account) σ st :
  answer B _ (Authenticate (json_body req)) = Ok (Some acct) →
  let random := Z.land (entropy B (draws st)) (Z.ones 128) in
  let key := uuid_hex (uuid4 random) in
  let l := fresh (dom (heap σ)) in
  let x := run (durable B) (login req) (σ, st) in
  outcome x = set_cookie "session_key" key <$> json (to_json acct)
  ∧ trace x = [Called (Authenticate (json_body req)) (Ok (Some acct));
               Called Urandom16 (Ok random);
               Called (GetUserSession key) (Ok l);
               Called (SaveUserSession key l) (Ok tt)]
  ∧ stored_session (final x).2 key
    = <[auth_session_key := VStr (name acct)]> (stored_session st key)
  ∧ ∀ key', key' ≠ key → stored_session (final x).2 key' = stored_session st key'.
Proof.
  intros Hauth. unfold login, outcome, trace, final, stored_session. simpl.
  rewrite Hauth. simpl.
  unfold json. destruct (dumps_raises (to_json acct)); simpl;
    rewrite !lookup_insert_eq; simpl;
    rewrite lookup_alter_eq, lookup_insert_eq; simpl;
    (repeat split; intros key' Hkey'; by rewrite lookup_insert_ne).
Qed.

End Login.

Section Logout.
Context `{E : Env}.

(** In the store that hands out copies, [logout] changes nothing in the
    store: it does not call [storage.save_user_session]. *)
Lemma logout_store_unchanged (B : backend) (req : request) σ st :
  sessions (final (run (durable B) (dispatch RLogout req) (σ, st))).2 = sessions st.
Proof.
  unfold final. simpl. unfold login_required, current_user, get_session, logout,
    logout_user, get_session. simpl.
  destruct (session_slot σ) as [l|] eqn:Hslot; simpl; [|done].
  destruct (heap σ !! l ≫= _) as [token|]; simpl; [|done].
  destruct token; simpl; try done;
    match goal with |- context [answer B _ ?c] => destruct (answer B _ c) as [[u|]|e] end;
    simpl; try done; rewrite Hslot; simpl; by rewrite json_ok.
Qed.


End Logout.

Section Ownership.
Context `{E : Env}.

(** The mailbox contents, the single message, mark-read and resend compare
    the stored [account] with the caller's name and raise [Forbidden] when
    they differ. *)
Lemma ownership_checked (M : model) (id : string) (req : request) (acct : account)
    (d : gmap string value) (owner : value) w :
  d !! "account" = Some owner → ne_str owner (name acct) = true →
  ((step M _ (GetMailbox id) w).1 = Ok (VDict d) →
   outcome (run M (mailbox id req acct) w)
   = Exn (Forbidden "You don't have permission to see this mailbox."))
  ∧ ((step M _ (GetMail id) w).1 = Ok (VDict d) →
     outcome (run M (mail id req acct) w)
     = Exn (Forbidden "You don't have permission to see this mail.")
     ∧ outcome (run M (mail_mark_read id req acct) w)
       = Exn (Forbidden "You don't have permission to see this mail.")
     ∧ outcome (run M (mail_resend id req acct) w)
       = Exn (Forbidden "You don't have permission to resend this mail.")).
Proof.
  intros Hown Hne. split; [|intros Hget; repeat split]; try intros Hget;
    unfold mailbox, mail, mail_mark_read, mail_resend, outcome; simpl;
    match goal with |- context [step M _ ?c w] => destruct (step M _ c w) as [r w1] end;
    simpl in *; subst r; simpl; rewrite Hown; simpl; by rewrite Hne.
Qed.

(** The attachment download reads no [account] field and raises no
    [Forbidden] of its own: what it raises is a malformed index, what the
    storage raised, or a malformed answer of the storage. *)
Lemma attachment_download_unchecked (M : model) (mail_id att_index filename : string)
    (req : request) (acct : account) w r :
  (∀ i, py_int att_index = Some i →
        (step M _ (GetMailAttachment mail_id i) w).1 = Ok r) →
  ∀ msg, outcome (run M (mail_download_attachment mail_id att_index filename req acct) w)
         ≠ Exn (Forbidden msg).
Proof.
  intros Hget msg. unfold mail_download_attachment, outcome. simpl.
  destruct (py_int att_index) as [i|]; simpl; [|done].
  specialize (Hget i eq_refl).
  destruct (step M _ (GetMailAttachment mail_id i) w) as [r' w1]. simpl in *. subst r'.
  simpl. destruct (unpack2 r) as [[attachment content]|e] eqn:Hunpack; simpl.
  - destruct (getitem attachment "type") as [type|e] eqn:Htype; simpl; [done|].
    destruct attachment; simpl in Htype; try (by injection Htype as <-).
    destruct (d !! "type"); [done|]. by injection Htype as <-.
  - unfold unpack2 in Hunpack.
    destruct (iter r) as [xs|e'] eqn:Hiter; simpl in Hunpack.
    + destruct xs as [|? [|? [|]]]; try done; by injection Hunpack as <-.
    + destruct r; simpl in Hiter; try done; injection Hiter as <-;
        by injection Hunpack as <-.
Qed.

End Ownership.

Section Defects.
Context `{E : Env}.

(** C1. The attachment download does not compare the mail's [account] with
    the caller's name: a caller who is refused a mail of another account
    with [Forbidden] is served the attachments of that mail. *)
Theorem attachment_served_to_other_account (M : model)
    (mail_id att_index filename : string) (req : request) (acct : account)
    (d a : gmap string value) (owner content type : value) (i : Z) w w1 :
  (step M _ (GetMail mail_id) w).1 = Ok (VDict d) →
  d !! "account" = Some owner → ne_str owner (name acct) = true →
  py_int att_index = Some i →
  step M _ (GetMailAttachment mail_id i) w = (Ok (VList [VDict a; content]), w1) →
  a !! "type" = Some type →
  outcome (run M (mail mail_id req acct) w)
  = Exn (Forbidden "You don't have permission to see this mail.")
  ∧ run M (mail_download_attachment mail_id att_index filename req acct) w
    = (Ok (stream content type), w1,
       [Called (GetMailAttachment mail_id i) (Ok (VList [VDict a; content]))]).
Proof.
  intros Hmail Hown Hne Hint Hatt Htype. split.
  - exact (proj1 (proj2 (ownership_checked M mail_id req acct d owner w Hown Hne) Hmail)).
  - unfold mail_download_attachment. rewrite Hint. simpl. rewrite Hatt. simpl.
    by rewrite Htype.
Qed.

(** The request middleware on a request with a non-empty [session_key]
    cookie, in the durable store: the session is a new dictionary with the
    stored content of the key. *)
Lemma durable_session_of_cookie (B : backend) (key : string) σ st :
  key ≠ "" →
  run (durable B) (add_session_to_request (with_cookie key)) (σ, st)
  = (Ok tt,
     (mk_objects (<[fresh (dom (heap σ)) := stored_session st key]> (heap σ))
                 (Some (fresh (dom (heap σ)))), st),
     [Called (GetUserSession key) (Ok (fresh (dom (heap σ))))]).
Proof.
  intros Hkey. unfold add_session_to_request, with_cookie. simpl.
  rewrite lookup_singleton_eq. simpl.
  by destruct (String.eqb_spec key "").
Qed.

(** A request for the profile with the cookie of a stored session that
    has the login entry of an account is served as that account. *)
Lemma durable_account_request (B : backend) (key : string) (acct : account)
    (token : value) σ st :
  key ≠ "" →
  stored_session st key !! auth_session_key = Some token → token ≠ VNone →
  answer B _ (AccountGet token) = Ok (Some acct) →
  dumps_raises (to_json acct) = None →
  outcome (run (durable B) (handle_request RAccount (with_cookie key)) (σ, st))
  = Ok (json_response (to_json acct)).
Proof.
  intros Hkey Htoken Hnone Hget Hprofile.
  unfold handle_request, add_session_to_request, with_cookie, outcome. simpl.
  rewrite lookup_singleton_eq. simpl.
  destruct (String.eqb_spec key "") as [|_]; [done|]. simpl.
  unfold login_required, current_user, get_session. simpl.
  rewrite lookup_insert_eq. simpl. unfold stored_session in Htoken. rewrite Htoken.
  destruct token; try done; simpl; rewrite Hget; simpl;
    unfold account_route, json; by rewrite Hprofile.
Qed.



End Defects.

(** C6, as stated, fails on a mail the JSON encoder refuses.  The stored
    mail belongs to the caller and holds a datetime and an integer beyond
    64 bits: it is marked read and handed to [storage.update_mail], and the
    handler then raises where it calls [json] instead of returning the
    updated mail. *)
Lemma mark_read_body_refused :
  ¬ (∀ (E : Env) (M : model) (mail_id : string) (req : request) (acct : account)
       (d : gmap string value) w w1 w2,
       step M _ (GetMail mail_id) w = (Ok (VDict d), w1) →
       d !! "account" = Some (VStr (name acct)) →
       step M _ (UpdateMail (VDict (<["unread" := VBool false]> d))) w1 = (Ok tt, w2) →
       outcome (run M (mail_mark_read (E := E) mail_id req acct) w)
       = Ok (json_response (VDict (<["unread" := VBool false]> d)))).
Proof.
  intros H.
  specialize (H demo_env demo "m4" (with_cookie first_key) test_account wide_mail
                served served served eq_refl).
  assert (wide_mail !! "account" = Some (VStr (name test_account))) as Hown
    by (vm_compute; reflexivity).
  specialize (H Hown eq_refl). vm_compute in H. discriminate H.
Qed.

(** ** The properties on the small installation *)

Section Installation.
#[local] Existing Instance demo_env.

(** [test_auth] of the repository's tests: a bad password is answered with
    403, the good one with 200. *)
Example test_auth :
  status <$> outcome (run demo (handle_request RLogin bad_login) start) = Ok 403
  ∧ status <$> outcome (run demo (handle_request RLogin good_login) start) = Ok 200.
Proof. split; vm_compute; reflexivity. Qed.

(** [test_send_mail]: a mail sent with the cookie of the login is answered
    with 200. *)
Example test_send_mail :
  let cookies := {[ "session_key" := first_key ]} in
  (resp_cookies <$> outcome (run demo (handle_request RLogin good_login) start))
  = Ok cookies
  ∧ status <$> outcome (run demo (handle_request RSendmail
                               (mk_request cookies test_message ∅)) logged_in)
    = Ok 200.
Proof. split; vm_compute; reflexivity. Qed.

(** The single-message response for the mail of [test]: the date is an ISO
    string, the unnamed attachment is [file_0.png], both have their URL. *)
Example mail_response :
  outcome (run demo (mail "m2" (with_cookie first_key) test_account) served)
  = Ok (json_response (VDict
      {[ "account" := VStr "test";
         "unread" := VBool true;
         "date" := VStr "2018-05-01T10:00:00";
         "subject" := VStr "hello";
         "attachments" := VList
           [ VDict {[ "index" := VInt 0; "type" := VStr "image/png";
                      "filename" := VStr "file_0.png";
                      "url" := VStr "/api/mail/m2/attachment/0/file_0.png" ]};
             VDict {[ "index" := VInt 1; "type" := VStr "text/x-unknown";
                      "filename" := VStr "notes.txt";
                      "url" := VStr "/api/mail/m2/attachment/1/notes.txt" ]} ] ]})).
Proof. vm_compute. reflexivity. Qed.

(** The mailbox listing: the datetime is reshaped, [None] is left alone. *)
Example mailboxes_response :
  outcome (run demo (mailboxes (with_cookie first_key) test_account) served)
  = Ok (json_response (VList
      [ VDict {[ "name" := VStr "alice@example.com";
                 "last_message" := VStr "2018-05-01T10:00:00" ]};
        VDict {[ "name" := VStr "bob@example.com"; "last_message" := VNone ]} ])).
Proof. vm_compute. reflexivity. Qed.

Lemma auth_failures_are_forbidden_witness :
  step demo _ (Authenticate (json_body bad_login)) start = (Ok None, start)
  ∧ outcome (run demo (login bad_login) start)
    = Exn (Forbidden "Authentification failed. Check your credentials.")
  ∧ session_protected RMailboxes = true
  ∧ outcome (run demo (dispatch RMailboxes bad_login)
               (final (run demo (add_session_to_request bad_login) start)))
    = Exn (Forbidden "This route need authentification").
Proof.
  assert (step demo _ (Authenticate (json_body bad_login)) start = (Ok None, start))
    as Hauth by reflexivity.
  split; [exact Hauth|]. split.
  - exact (proj1 (auth_failures_are_forbidden demo bad_login start) start Hauth).
  - split; [reflexivity|].
    apply (proj2 (auth_failures_are_forbidden demo bad_login _) RMailboxes eq_refl).
    exists 0%nat. split; [reflexivity|]. vm_compute. exact I.
Defined.

Lemma contacts_search_blank_witness :
  let t := [Called (AccountGet (VStr "test")) (Ok (Some test_account))] in
  (args (with_cookie first_key) !! "text" = None
   ∨ args (with_cookie first_key) !! "text" = Some "")
  ∧ run demo current_user served = (Ok (Some test_account), served, t)
  ∧ run demo (dispatch RContactsSearch (with_cookie first_key)) served
    = (Ok (json_response (VList [])), served, t).
Proof.
  intros t.
  assert (args (with_cookie first_key) !! "text" = None
          ∨ args (with_cookie first_key) !! "text" = Some "") as Htext
    by (left; reflexivity).
  assert (run demo current_user served = (Ok (Some test_account), served, t)) as Huser
    by (vm_compute; reflexivity).
  split; [exact Htext|]. split; [exact Huser|].
  exact (proj1 (contacts_search_blank demo (with_cookie first_key) test_account
                  served served t Htext Huser)).
Defined.

Lemma mark_read_clears_unread_witness :
  let updated := VDict (<["unread" := VBool false]> plain_mail) in
  step demo _ (GetMail "m3") served = (Ok (VDict plain_mail), served)
  ∧ plain_mail !! "account" = Some (VStr (name test_account))
  ∧ step demo _ (UpdateMail updated) served = (Ok tt, served)
  ∧ dumps_raises updated = None
  ∧ run demo (mail_mark_read "m3" (with_cookie first_key) test_account) served
    = (Ok (json_response updated), served,
       [Called (GetMail "m3") (Ok (VDict plain_mail)); Called (UpdateMail updated) (Ok tt)]).
Proof.
  intros updated.
  assert (step demo _ (GetMail "m3") served = (Ok (VDict plain_mail), served)) as Hget
    by reflexivity.
  assert (plain_mail !! "account" = Some (VStr (name test_account))) as Hown
    by (vm_compute; reflexivity).
  assert (step demo _ (UpdateMail updated) served = (Ok tt, served)) as Hupd
    by reflexivity.
  assert (dumps_raises updated = None) as Hacc by (vm_compute; reflexivity).
  split; [exact Hget|]. split; [exact Hown|]. split; [exact Hupd|]. split; [exact Hacc|].
  exact (proj1 (proj2 (mark_read_clears_unread demo "m3" (with_cookie first_key)
                         test_account plain_mail served served served Hget Hown Hupd))
           Hacc).
Defined.

Lemma mark_read_frame_witness :
  (step demo _ (GetMail "m3") served).1 = Ok (VDict plain_mail)
  ∧ outcome (run demo (mail_mark_read "m3" (with_cookie first_key) test_account) served)
    = Ok (json_response (VDict (<["unread" := VBool false]> plain_mail)))
  ∧ ∃ d d', VDict plain_mail = VDict d
      ∧ VDict (<["unread" := VBool false]> plain_mail) = VDict d'
      ∧ ∀ k, k ≠ "unread" → d' !! k = d !! k.
Proof.
  assert ((step demo _ (GetMail "m3") served).1 = Ok (VDict plain_mail)) as Hget
    by reflexivity.
  assert (outcome (run demo (mail_mark_read "m3" (with_cookie first_key) test_account) served)
          = Ok (json_response (VDict (<["unread" := VBool false]> plain_mail)))) as Hret
    by (vm_compute; reflexivity).
  split; [exact Hget|]. split; [exact Hret|].
  exact (mark_read_frame demo "m3" (with_cookie first_key) test_account
           (VDict plain_mail) served Hget _ (or_intror Hret)).
Defined.

Lemma timestamps_reshaped_witness :
  (∃ ms', Forall2 (entry_reshaped "last_message") test_mailboxes ms'
     ∧ outcome (run demo (mailboxes (with_cookie first_key) test_account) served)
       = json (VList ms'))
  ∧ (∃ ms', Forall2 (entry_reshaped "date")
              [ VDict {[ "date" := VDatetime (mk_datetime 2018 5 1 10 0 0 0);
                         "subject" := VStr "hello" ]};
                VDict {[ "date" := VStr "2018-04-30T08:00:00";
                         "subject" := VStr "older" ]} ] ms'
       ∧ outcome (run demo (mailbox "inbox" (with_cookie first_key) test_account) served)
         = json (VDict (<["messages" := VList ms']> test_mailbox)))
  ∧ (∃ d', field_reshaped "date" test_mail d'
       ∧ outcome (run demo (mail "m2" (with_cookie first_key) test_account) served)
         = json (VDict d'))
  ∧ status <$> outcome (run demo (mail "m2" (with_cookie first_key) test_account) served)
    = Ok 200.
Proof.
  destruct (timestamps_reshaped demo (with_cookie first_key) test_account served)
    as (Hboxes & Hbox & Hmail).
  split; [|split; [|split]].
  - apply (proj1 (Hboxes test_mailboxes eq_refl)).
    repeat constructor; eexists; (split; [reflexivity|]); vm_compute; eauto.
  - refine (proj1 (Hbox "inbox" test_mailbox _ eq_refl _) _ _).
    + vm_compute. reflexivity.
    + vm_compute. reflexivity.
    + repeat constructor; eexists; (split; [reflexivity|]); vm_compute; eauto.
  - refine (proj1 (Hmail "m2" test_mail _ eq_refl) _ _ _ _).
    + vm_compute. reflexivity.
    + vm_compute. eauto.
    + vm_compute. reflexivity.
    + repeat constructor; eexists; (split; [reflexivity|]); (split; [vm_compute; eauto|]);
        vm_compute; intros; try discriminate; eexists; (split; [reflexivity|exact I]).
  - vm_compute. reflexivity.
Defined.

Lemma attachments_named_witness :
  let atts := [ VDict {[ "index" := VInt 0; "type" := VStr "image/png" ]};
                VDict {[ "index" := VInt 1; "type" := VStr "text/x-unknown";
                         "filename" := VStr "notes.txt" ]} ] in
  (step demo _ (GetMail "m2") served).1 = Ok (VDict test_mail)
  ∧ test_mail !! "attachments" = Some (VList atts)
  ∧ (∃ d' atts',
       outcome (run demo (mail "m2" (with_cookie first_key) test_account) served)
       = json (VDict d')
       ∧ d' !! "attachments" = Some (VList atts')
       ∧ Forall2 (attachment_named "m2") atts atts')
  ∧ ∃ resp, outcome (run demo (mail "m2" (with_cookie first_key) test_account) served)
            = Ok resp
      ∧ ∃ d' atts', resp = json_response (VDict d')
          ∧ d' !! "attachments" = Some (VList atts')
          ∧ Forall2 (attachment_named "m2") atts atts'.
Proof.
  intros atts.
  assert ((step demo _ (GetMail "m2") served).1 = Ok (VDict test_mail)) as Hget
    by reflexivity.
  assert (test_mail !! "attachments" = Some (VList atts)) as Hatts
    by (vm_compute; reflexivity).
  split; [exact Hget|]. split; [exact Hatts|].
  destruct (attachments_named demo "m2" (with_cookie first_key) test_account
              test_mail atts served Hget Hatts) as [Hreaches Hnamed].
  split.
  - apply Hreaches.
    + vm_compute. reflexivity.
    + vm_compute. eexists. reflexivity.
    + repeat constructor; eexists; (split; [reflexivity|]);
        (split; [vm_compute; eexists; reflexivity|]);
        vm_compute; intros Hname; try discriminate Hname;
        eexists; (split; [reflexivity|exact I]).
  - assert (∃ resp, outcome (run demo (mail "m2" (with_cookie first_key) test_account)
                               served) = Ok resp) as [resp Hresp]
      by (vm_compute; eauto).
    exists resp. split; [exact Hresp|]. exact (Hnamed resp Hresp).
Defined.

Lemma session_of_request_witness :
  (∃ l, heap start.1 !! l = None
     ∧ run demo (add_session_to_request good_login) start
       = (Ok tt, (mk_objects (<[l := ∅]> (heap start.1)) (Some l), start.2), []))
  ∧ (let w' := (step demo _ (GetUserSession first_key) logged_in).2 in
     run demo (add_session_to_request (with_cookie first_key)) logged_in
     = (Ok tt, (mk_objects (heap w'.1) (Some 2%nat), w'.2),
        [Called (GetUserSession first_key) (Ok 2%nat)]))
  ∧ ∃ token i,
      run demo gen_session_key start
      = (Ok token, (start.1, mk_store ∅ 1), [Called Urandom16 (Ok (2 ^ 127))])
      ∧ 0 ≤ i < 2 ^ 128 ∧ hex_value token = Some i
      ∧ String.length token = 32%nat
      ∧ Forall (λ c, is_hex_digit c = true) (list_ascii_of_string token).
Proof.
  split; [|split].
  - apply (proj1 (session_of_request demo good_login start)). left. reflexivity.
  - apply (proj1 (proj2 (session_of_request demo (with_cookie first_key) logged_in))
             first_key 2%nat).
    + reflexivity.
    + discriminate.
    + vm_compute. reflexivity.
  - apply (proj2 (proj2 (session_of_request demo good_login start))
             (2 ^ 127) (start.1, mk_store ∅ 1)).
    + vm_compute. reflexivity.
    + lia.
Defined.

Lemma login_opens_session_witness :
  answer demo_backend _ (Authenticate (json_body good_login)) = Ok (Some test_account)
  ∧ outcome (run demo (login good_login) start)
    = Ok (set_cookie "session_key" first_key (json_response (to_json test_account)))
  ∧ stored_session (final (run demo (login good_login) start)).2 first_key
    = {[ auth_session_key := VStr "test" ]}.
Proof.
  assert (answer demo_backend _ (Authenticate (json_body good_login))
          = Ok (Some test_account)) as Hauth by (vm_compute; reflexivity).
  split; [exact Hauth|].
  destruct (login_opens_session demo_backend good_login test_account start.1 start.2 Hauth)
    as (Hout & _ & Hstored & _).
  split.
  - etrans; [exact Hout|]. vm_compute. reflexivity.
  - etrans; [exact Hstored|]. vm_compute. reflexivity.
Defined.

Lemma attachment_served_to_other_account_witness :
  let a : gmap string value := {[ "type" := VStr "image/png" ]} in
  let content := VBytes [137; 80; 78; 71] in
  (step demo _ (GetMail "m1") served).1 = Ok (VDict alice_mail)
  ∧ alice_mail !! "account" = Some (VStr "alice")
  ∧ ne_str (VStr "alice") (name test_account) = true
  ∧ py_int "0" = Some 0
  ∧ step demo _ (GetMailAttachment "m1" 0) served = (Ok (VList [VDict a; content]), served)
  ∧ a !! "type" = Some (VStr "image/png")
  ∧ outcome (run demo (mail "m1" (with_cookie first_key) test_account) served)
    = Exn (Forbidden "You don't have permission to see this mail.")
  ∧ run demo (mail_download_attachment "m1" "0" "file_0.png" (with_cookie first_key)
                test_account) served
    = (Ok (stream content (VStr "image/png")), served,
       [Called (GetMailAttachment "m1" 0) (Ok (VList [VDict a; content]))]).
Proof.
  intros a content.
  assert ((step demo _ (GetMail "m1") served).1 = Ok (VDict alice_mail)) as Hmail
    by reflexivity.
  assert (alice_mail !! "account" = Some (VStr "alice")) as Hown
    by (vm_compute; reflexivity).
  assert (ne_str (VStr "alice") (name test_account) = true) as Hne by reflexivity.
  assert (py_int "0" = Some 0) as Hint by reflexivity.
  assert (step demo _ (GetMailAttachment "m1" 0) served
          = (Ok (VList [VDict a; content]), served)) as Hatt by reflexivity.
  assert (a !! "type" = Some (VStr "image/png")) as Htype by (vm_compute; reflexivity).
  do 6 (split; [assumption|]).
  exact (attachment_served_to_other_account demo "m1" "0" "file_0.png"
           (with_cookie first_key) test_account alice_mail a (VStr "alice") content
           (VStr "image/png") 0 served served Hmail Hown Hne Hint Hatt Htype).
Defined.


End Installation.

(** * Further properties of the handlers *)

(** ** Footprints *)

Lemma within_weaken {A} (P P' : ∀ X, call X → bool) (Q Q' : A → Prop) (p : prog A) :
  (∀ X (c : call X), P X c = true → P' X c = true) → (∀ a, Q a → Q' a) →
  within P Q p → within P' Q' p.
Proof.
  intros HP HQ. induction p as [a|e|X o k IH|X c k IH]; simpl; auto.
  intros [Hc Hk]. split; auto.
Qed.

Lemma within_bind {A B} P (Q0 : A → Prop) (Q : B → Prop) (p : prog A) (f : A → prog B) :
  within P Q0 p → (∀ a, Q0 a → within P Q (f a)) → within P Q (p ≫= f).
Proof.
  intros Hp Hf. unfold mbind, prog_bind.
  induction p as [a|e|X o k IH|X c k IH]; simpl in *; auto.
  destruct Hp as [Hc Hk]. split; auto.
Qed.

Lemma within_lift {A} P (Q : A → Prop) (r : result A) :
  (∀ a, r = Ok a → Q a) → within P Q (lift r).
Proof. destruct r; simpl; auto. Qed.

Lemma within_await {X} P (Q : X → Prop) (c : call X) :
  P X c = true → (∀ x, Q x) → within P Q (await c).
Proof. intros Hc HQ. split; [done|]. intros [x|e]; simpl; auto. Qed.

Lemma within_obj {X} P (Q : X → Prop) (o : objop X) :
  (∀ x, Q x) → within P Q (obj o).
Proof. intros HQ. simpl. auto. Qed.

Lemma within_catch {A} P (Q : A → Prop) (p : prog A) (h : exn → prog A) :
  within P Q p → (∀ e, within P Q (h e)) → within P Q (catch p h).
Proof.
  intros Hp Hh. induction p as [a|e|X o k IH|X c k IH]; simpl in *; auto.
  destruct Hp as [Hc Hk]. split; auto.
Qed.

(** What [within] promises of a run, whatever the collaborators answer. *)
Lemma within_run {A} P (Q : A → Prop) (p : prog A) (M : model) w :
  within P Q p →
  Forall (λ e, event_in P e = true) (trace (run M p w))
  ∧ ∀ a, outcome (run M p w) = Ok a → Q a.
Proof.
  unfold trace, outcome. revert w.
  induction p as [a|e|X o k IH|X c k IH]; simpl; intros w Hp.
  - split; [constructor|]. by intros a' [= <-].
  - split; [constructor|]. discriminate.
  - destruct (obj_step o w.1) as [x σ]. by apply IH.
  - destruct Hp as [Hc Hk]. destruct (step M X c w) as [r w'].
    specialize (IH r w' (Hk r)).
    destruct (run M (k r) w') as [[a w''] t]. simpl in *.
    destruct IH as [Ht Ha]. split; [by constructor|done].
Qed.

Ltac footprint_step :=
  first
    [ exact I
    | reflexivity
    | progress intros
    | apply within_lift; intros; try done
    | apply within_await; [reflexivity | done]
    | apply within_obj; done
    | eapply (within_bind _ (λ _, True)); [ | intros ? _ ]
    | match goal with
      | |- within _ _ (if ?b then _ else _) => destruct b
      | |- within _ _ (match ?x with _ => _ end) => destruct x
      | |- within _ _ (Ret _) => progress simpl
      | |- within _ _ (mret _) => progress simpl
      | |- within _ _ (Raise _) => exact I
      end ].

Ltac footprint := repeat footprint_step.

Section Footprints.
Context `{E : Env}.

Lemma within_gen_session_key (P : ∀ X, call X → bool) :
  P _ Urandom16 = true → within P (λ _, True) gen_session_key.
Proof. intros HP. unfold gen_session_key. split; [done|]. by intros [x|e]. Qed.

Lemma within_current_user (P : ∀ X, call X → bool) :
  (∀ token, P _ (AccountGet token) = true) → within P (λ _, True) current_user.
Proof.
  intros HP. unfold current_user, get_session.
  eapply (within_bind _ (λ _, True)); [|intros session _].
  - eapply (within_bind _ (λ _, True)); [by apply within_obj|].
    intros [l|] _; exact I.
  - eapply (within_bind _ (λ _, True)); [by apply within_obj|].
    intros [token|] _; [|exact I].
    destruct token; try exact I; (apply within_await; [apply HP|done]).
Qed.

Lemma within_login_required (P : ∀ X, call X → bool) (Q : response → Prop) route req :
  (∀ token, P _ (AccountGet token) = true) →
  (∀ u, within P Q (route req u)) →
  within P Q (login_required route req).
Proof.
  intros HP Hroute. unfold login_required.
  eapply within_bind; [by apply within_current_user|].
  intros [u|] _; [apply Hroute|exact I].
Qed.

Lemma within_comprehension (P : ∀ X, call X → bool) cond f l :
  (∀ a, within P (λ _, True) (f a)) →
  within P (λ _, True) (comprehension cond f l).
Proof.
  intros Hf. induction l as [|a l IH]; simpl; [exact I|].
  eapply (within_bind _ (λ _, True)); [by apply within_lift|].
  intros [|] _; [|exact IH].
  eapply (within_bind _ (λ _, True)); [apply Hf|]. intros y _.
  eapply (within_bind _ (λ _, True)); [exact IH|]. intros ys _. exact I.
Qed.

Lemma within_parse_recipient (P : ∀ X, call X → bool) a :
  (∀ addr, P _ (ParseEmail addr) = true) → within P (λ _, True) (parse_recipient a).
Proof.
  intros HP. unfold parse_recipient.
  eapply (within_bind _ (λ _, True)); [by apply within_lift|].
  intros addr _. by apply within_await.
Qed.

(** Each route makes only the calls of its row in [permitted]. *)
Lemma dispatch_within (r : route) (req : request) :
  within (permitted r) (λ _, True) (dispatch r req).
Proof.
  destruct r; simpl dispatch;
    try (apply within_login_required; [done|intros u]).
  - unfold login. footprint.
  - unfold logout, logout_user, get_session. footprint.
  - unfold account_route. footprint.
  - exact I.
  - unfold mailboxes. footprint.
  - unfold mailbox. footprint.
  - unfold mail. footprint.
  - unfold mail_mark_read. footprint.
  - unfold mail_download_attachment. footprint.
  - unfold sendmail.
    eapply (within_bind _ (λ _, True)); [by apply within_await|]. intros from_addr _.
    eapply (within_bind _ (λ _, True)); [by apply within_lift|]. intros rs _.
    eapply (within_bind _ (λ _, True));
      [apply within_comprehension; intros a; by apply within_parse_recipient|].
    intros all_addrs _.
    eapply (within_bind _ (λ _, True)); [by apply within_lift|]. intros rs' _.
    eapply (within_bind _ (λ _, True));
      [apply within_comprehension; intros a; by apply within_parse_recipient|].
    intros tos _.
    eapply (within_bind _ (λ _, True)); [by apply within_lift|]. intros rs'' _.
    eapply (within_bind _ (λ _, True));
      [apply within_comprehension; intros a; by apply within_parse_recipient|].
    intros ccs _. footprint.
  - unfold mail_resend. footprint.
  - unfold contacts_search. footprint.
Qed.

End Footprints.

Section Pipeline.
Context `{E : Env}.

Lemma within_add_session_to_request (P : ∀ X, call X → bool) req :
  (∀ key, P _ (GetUserSession key) = true) →
  within P (λ _, True) (add_session_to_request req).
Proof.
  intros HP. unfold add_session_to_request.
  destruct (cookies req !! "session_key") as [key|]; [destruct (truthy (VStr key))|];
    footprint.
  split; [apply HP|]. intros [l|e]; simpl; auto.
Qed.

Lemma within_add_session_key_to_response (P : ∀ X, call X → bool) req resp :
  P _ Urandom16 = true →
  within P (λ _, True) (add_session_key_to_response req resp).
Proof.
  intros HP. unfold add_session_key_to_response.
  destruct (cookies req !! "session_key"), (resp_cookies resp !! "session_key");
    try exact I.
  eapply (within_bind _ (λ _, True)); [by apply within_gen_session_key|].
  intros key _. exact I.
Qed.

(** A whole request makes the calls of its route, the session lookup of
    the request middleware and the entropy draw of the response
    middleware. *)
Lemma handle_request_within (P : ∀ X, call X → bool) (r : route) (req : request) :
  (∀ X (c : call X), permitted r X c = true → P X c = true) →
  (∀ key, P _ (GetUserSession key) = true) → P _ Urandom16 = true →
  within P (λ _, True) (handle_request r req).
Proof.
  intros Hr Hget Hrand. unfold handle_request.
  eapply (within_bind _ (λ _, True)).
  - apply within_catch; [|intros e; exact I].
    eapply (within_bind _ (λ _, True)); [by apply within_add_session_to_request|].
    intros _ _. eapply within_weaken; [exact Hr| |apply dispatch_within]. done.
  - intros resp _. by apply within_add_session_key_to_response.
Qed.

(** X1. Whatever the collaborators answer, a route makes no other calls
    than those of its row in [permitted]. *)
Theorem route_footprint (M : model) (r : route) (req : request) w :
  Forall (λ e, event_in (permitted r) e = true) (trace (run M (dispatch r req) w)).
Proof. exact (proj1 (within_run _ _ _ M w (dispatch_within r req))). Qed.

(** X2. A request to a route registered for [GET] changes nothing outside
    the request: through both middlewares and the handler it saves no
    session, updates no mail and sends none. *)
Theorem get_routes_are_safe (M : model) (r : route) (req : request) w :
  method r = GET →
  Forall (λ e, event_in is_write e = false) (trace (run M (handle_request r req) w)).
Proof.
  intros Hget.
  pose (P := λ X (c : call X), negb (is_write X c)).
  assert (within P (λ _, True) (handle_request r req)) as Hwithin.
  { apply handle_request_within; [|done..].
    intros X c Hc. destruct r; try discriminate Hget; by destruct c. }
  eapply Forall_impl; [exact (proj1 (within_run _ _ _ M w Hwithin))|].
  intros [X c res]. unfold P. simpl. by destruct (is_write X c).
Qed.

End Pipeline.

(** ** The durable store across requests *)

(** A program that makes no [save_user_session] call leaves the stored
    sessions as they are. *)
Lemma durable_frame {A} (B : backend) (P : ∀ X, call X → bool) (Q : A → Prop)
    (p : prog A) w :
  (∀ X (c : call X), P X c = true → is_save_session X c = false) →
  within P Q p →
  sessions (final (run (durable B) p w)).2 = sessions w.2.
Proof.
  intros HP. unfold final. revert w.
  induction p as [a|e|X o k IH|X c k IH]; intros w Hp; simpl; try done.
  - match goal with
    | |- context [obj_step ?o' ?s] => destruct (obj_step o' s) as [x σ]
    end.
    exact (IH x (σ, w.2) (Hp x)).
  - destruct Hp as [Hc Hk]. apply HP in Hc.
    destruct (durable_step B X c w) as [r w'] eqn:Hstep.
    specialize (IH r w' (Hk r)).
    destruct (run (durable B) (k r) w') as [[a w''] t]. simpl in *.
    rewrite IH. destruct w as [σ st].
    destruct c; simpl in Hstep; try discriminate Hc; by injection Hstep as _ <-.
Qed.

Section Stored.
Context `{E : Env}.

(** X3. Only the login writes sessions: a request to any other route,
    through the whole application, leaves the stored sessions as they
    were. *)
Theorem only_login_stores_sessions (B : backend) (r : route) (req : request) σ st :
  r ≠ RLogin →
  sessions (final (run (durable B) (handle_request r req) (σ, st))).2 = sessions st.
Proof.
  intros Hr.
  apply (durable_frame B (λ X c, negb (is_save_session X c)) (λ _, True)).
  - intros X c. by destruct (is_save_session X c).
  - apply handle_request_within; [|done..].
    intros X c Hc. destruct r; try done; by destruct c.
Qed.

End Stored.

Section Logins.
Context `{E : Env}.

(** In the durable store the request middleware returns, binds the
    session of the request and leaves the store alone. *)
Lemma durable_middleware (B : backend) (req : request) (w : objects * state (durable B)) :
  ∃ σ' t, run (durable B) (add_session_to_request req) w = (Ok tt, (σ', w.2), t)
          ∧ is_Some (session_slot σ').
Proof.
  destruct w as [σ st]. unfold add_session_to_request.
  destruct (cookies req !! "session_key") as [key|]; [destruct (truthy (VStr key))|];
    simpl; eexists _, _; (split; [reflexivity|]); simpl; by eexists.
Qed.

(** The run of a successful [login] in the durable store. *)
Lemma durable_login (B : backend) (req : request) (acct : account)
    (w : objects * state (durable B)) :
  answer B _ (Authenticate (json_body req)) = Ok (Some acct) →
  let key := uuid_hex (uuid4 (Z.land (entropy B (draws w.2)) (Z.ones 128))) in
  ∃ σ' t, run (durable B) (login req) w
    = (set_cookie "session_key" key <$> json (to_json acct),
       (σ', logged w.2 key acct), t).
Proof.
  destruct w as [σ st]. intros Hauth key. unfold login, logged. simpl. rewrite Hauth. simpl.
  rewrite lookup_alter_eq, lookup_insert_eq. simpl.
  destruct (json (to_json acct)); simpl; by eexists _, _.
Qed.

(** A failed [login] raises, whatever the collaborators are, after the one
    call to [account_manager.authenticate]. *)
Lemma login_failed (M : model) (req : request) w :
  (∀ acct, (step M _ (Authenticate (json_body req)) w).1 ≠ Ok (Some acct)) →
  ∃ e, run M (login req) w
       = (Exn e, (step M _ (Authenticate (json_body req)) w).2,
          [Called (Authenticate (json_body req))
                  (step M _ (Authenticate (json_body req)) w).1]).
Proof.
  intros Hauth. unfold login. simpl.
  destruct (step M _ (Authenticate (json_body req)) w) as [[[acct|]|e] w']; simpl in *.
  - by destruct (Hauth acct).
  - by eexists.
  - by eexists.
Qed.

(** The whole login request in the durable store, when the encoder accepts
    the profile of the account. *)
Lemma durable_login_request (B : backend) (req : request) (acct : account)
    (w : objects * state (durable B)) :
  answer B _ (Authenticate (json_body req)) = Ok (Some acct) →
  dumps_raises (to_json acct) = None →
  let key := uuid_hex (uuid4 (Z.land (entropy B (draws w.2)) (Z.ones 128))) in
  ∃ σ' t, run (durable B) (handle_request RLogin req) w
    = (Ok (set_cookie "session_key" key (json_response (to_json acct))),
       (σ', logged w.2 key acct), t).
Proof.
  intros Hauth Hprofile key. unfold handle_request.
  rewrite run_bind, run_catch, run_bind.
  destruct (durable_middleware B req w) as (σ1 & t1 & -> & _).
  simpl dispatch.
  destruct (durable_login B req acct (σ1, w.2) Hauth) as (σ2 & t2 & ->).
  rewrite (json_accepted _ Hprofile).
  unfold add_session_key_to_response. simpl.
  rewrite lookup_insert_eq.
  destruct (cookies req !! "session_key"); simpl; by eexists _, _.
Qed.

Lemma uuid_hex_nonempty (n : Z) : uuid_hex (uuid4 (Z.land n (Z.ones 128))) ≠ "".
Proof.
  intros Hempty.
  assert (0 ≤ Z.land n (Z.ones 128) < 2 ^ 128) as Hrange.
  { rewrite Z.land_ones by lia. apply Z.mod_pos_bound. lia. }
  pose proof (uuid_hex_length _ (uuid4_range _ Hrange)) as Hlen.
  rewrite Hempty in Hlen. discriminate Hlen.
Qed.

(** X4. The cookie of a login opens the session.  After a login with
    credentials that authenticate, a request that presents the
    [session_key] cookie of the response is served as the account
    [account_manager.get] finds for the name stored at login.  The
    profiles of the two accounts are objects the encoder accepts. *)
Theorem login_round_trip (B : backend) (req : request) (acct acct' : account) σ st :
  answer B _ (Authenticate (json_body req)) = Ok (Some acct) →
  answer B _ (AccountGet (VStr (name acct))) = Ok (Some acct') →
  dumps_raises (to_json acct) = None → dumps_raises (to_json acct') = None →
  let x := run (durable B) (handle_request RLogin req) (σ, st) in
  ∃ resp key, outcome x = Ok resp ∧ resp_cookies resp !! "session_key" = Some key
    ∧ outcome (run (durable B) (handle_request RAccount (with_cookie key)) (final x))
      = Ok (json_response (to_json acct')).
Proof.
  intros Hauth Hget Hprofile Hprofile' x.
  destruct (durable_login_request B req acct (σ, st) Hauth Hprofile) as (σ' & t & Hx).
  subst x. rewrite Hx. unfold outcome, final. simpl.
  eexists _, _. split; [reflexivity|]. split; [apply lookup_insert_eq|].
  apply (durable_account_request B _ acct' (VStr (name acct))).
  - apply uuid_hex_nonempty.
  - unfold stored_session, logged. simpl. rewrite lookup_insert_eq. simpl.
    by rewrite lookup_insert_eq.
  - discriminate.
  - exact Hget.
  - exact Hprofile'.
Qed.

(** A login request whose credentials do not authenticate leaves the
    stored sessions as they were. *)
Lemma durable_login_request_failed (B : backend) (req : request)
    (w : objects * state (durable B)) :
  (∀ acct, answer B _ (Authenticate (json_body req)) ≠ Ok (Some acct)) →
  sessions (final (run (durable B) (handle_request RLogin req) w)).2 = sessions w.2.
Proof.
  intros Hauth. unfold handle_request, final.
  rewrite run_bind, run_catch, run_bind.
  destruct (durable_middleware B req w) as (σ1 & t1 & -> & _).
  simpl dispatch.
  destruct (login_failed (durable B) req (σ1, w.2)) as [e ->].
  { intros acct. apply Hauth. }
  simpl.
  match goal with
  | |- context [run ?M ?p ?w0] =>
      pose proof (durable_frame B (λ X c, negb (is_save_session X c)) (λ _, True)
                    p w0) as Hf;
      unfold final in Hf; destruct (run M p w0) as [[r w''] t']
  end.
  simpl in *. apply Hf; [intros X c; by destruct (is_save_session X c)|].
  by apply within_add_session_key_to_response.
Qed.

(** The premise of C2 is needed.  In the store that hands out
    copies, the pop of [logout] reaches the copy only: [logout] never calls
    [storage.save_user_session], so the store maps the old key to the same
    session as before and a later request that presents the old key is
    served as the account. *)
Lemma logout_in_a_store_of_copies (B : backend) (key : string) (acct : account)
    (token : value) σ st :
  key ≠ "" →
  stored_session st key !! auth_session_key = Some token → token ≠ VNone →
  answer B _ (AccountGet token) = Ok (Some acct) →
  dumps_raises (to_json acct) = None →
  let x := run (durable B) (handle_request RLogout (with_cookie key)) (σ, st) in
  stored_session (final x).2 key = stored_session st key
  ∧ outcome (run (durable B) (handle_request RAccount (with_cookie key)) (final x))
    = Ok (json_response (to_json acct)).
Proof.
  intros Hkey Htoken Hnone Hget Hprofile x.
  destruct (final x) as [σ' st'] eqn:Hfinal.
  assert (sessions st' = sessions st) as Hsame.
  { change st' with (σ', st').2. rewrite <- Hfinal. subst x.
    apply (durable_frame B (λ X c, negb (is_save_session X c)) (λ _, True)).
    - intros X c. by destruct (is_save_session X c).
    - apply handle_request_within; [|done..].
      intros X c Hc. by destruct c. }
  assert (stored_session st' key = stored_session st key) as Hstored
    by (unfold stored_session; by rewrite Hsame).
  split; [done|].
  apply (durable_account_request B key acct token); try done. by rewrite Hstored.
Qed.

End Logins.

(** ** The sessions that are saved *)

Lemma saved_sessions_app (t1 t2 : list event) :
  saved_sessions (t1 ++ t2) = (saved_sessions t1 ++ saved_sessions t2)%list.
Proof. apply omap_app. Qed.

(** A program that makes no call to [storage.save_user_session] saves no
    session. *)
Lemma saved_sessions_none {A} (Q : A → Prop) (p : prog A) (M : model) w :
  within (λ X c, negb (is_save_session X c)) Q p →
  saved_sessions (trace (run M p w)) = [].
Proof.
  intros Hp. pose proof (proj1 (within_run _ _ _ M w Hp)) as Ht.
  induction Ht as [|[X c res] t Hc _ IH]; [done|].
  simpl in *. rewrite IH. by destruct c.
Qed.

Section Saved.
Context `{E : Env}.

(** What [login] saves. *)
Lemma login_saves (M : model) (req : request) w (key : string) (l : loc) :
  let t := trace (run M (login req) w) in
  In (key, l) (saved_sessions t) →
  ∃ acct random,
    In (Called (Authenticate (json_body req)) (Ok (Some acct))) t
    ∧ In (Called Urandom16 (Ok random)) t
    ∧ key = uuid_hex (uuid4 random)
    ∧ In (Called (GetUserSession key) (Ok l)) t.
Proof.
  unfold login, gen_session_key, trace. simpl.
  destruct (step M _ (Authenticate (json_body req)) w) as [[[acct|]|e] w1]; simpl;
    try (by intros []).
  destruct (step M _ Urandom16 w1) as [[random|e] w2]; simpl; [|by intros []].
  destruct (step M _ (GetUserSession _) w2) as [[session|e] w3]; simpl; [|by intros []].
  destruct (step M _ (SaveUserSession _ _) _) as [[[]|e] w4]; simpl;
    [destruct (json (to_json acct)); simpl|];
    (intros [[= <- <-]|[]]; exists acct, random; repeat split; simpl; tauto).
Qed.

(** X5. Sessions are saved under generated keys only.  Whatever the
    collaborators answer, a request makes [storage.save_user_session] save
    a session only on the login route, after [account_manager.authenticate]
    has found an account; the key it is saved under is the hexadecimal form
    of a UUID made from a draw of the entropy source during that request,
    never a value of the request, and the dictionary saved is the one
    [storage.get_user_session] handed out for that key. *)
Theorem sessions_saved_under_generated_keys (M : model) (r : route) (req : request) w
    (key : string) (l : loc) :
  let t := trace (run M (handle_request r req) w) in
  In (key, l) (saved_sessions t) →
  r = RLogin
  ∧ ∃ acct random,
      In (Called (Authenticate (json_body req)) (Ok (Some acct))) t
      ∧ In (Called Urandom16 (Ok random)) t
      ∧ key = uuid_hex (uuid4 random)
      ∧ In (Called (GetUserSession key) (Ok l)) t.
Proof.
  intros t Hin.
  assert (r = RLogin) as ->.
  { assert (r = RLogin ∨ r ≠ RLogin) as [|Hr]
      by (destruct r; (by left) || (by right)); [done|]. exfalso.
    subst t. rewrite (saved_sessions_none (λ _, True)) in Hin; [done|].
    apply handle_request_within; [|done..].
    intros X c Hc. destruct r; try done; by destruct c. }
  split; [done|]. subst t. revert Hin.
  unfold handle_request, trace. rewrite run_bind, run_catch, run_bind.
  pose proof (saved_sessions_none (λ _, True) (add_session_to_request req) M w
                ltac:(by apply within_add_session_to_request)) as Hmw.
  unfold trace in Hmw.
  destruct (run M (add_session_to_request req) w) as [[[[]|e0] w1] t1]; simpl in Hmw.
  - simpl dispatch.
    pose proof (login_saves M req w1 key l) as Hlogin. unfold trace in Hlogin.
    destruct (run M (login req) w1) as [[[resp|e] w2] t2]; simpl in Hlogin.
    + pose proof (saved_sessions_none (λ _, True) (add_session_key_to_response req resp)
                    M w2 ltac:(by apply within_add_session_key_to_response)) as Hout.
      unfold trace in Hout.
      destruct (run M (add_session_key_to_response req resp) w2) as [[r3 w3] t3].
      simpl in *. rewrite !saved_sessions_app, Hmw, Hout, app_nil_r. simpl.
      intros Hin. destruct (Hlogin Hin) as (acct & random & H1 & H2 & -> & H3).
      exists acct, random. rewrite !in_app_iff. tauto.
    + pose proof (saved_sessions_none (λ _, True)
                    (add_session_key_to_response req (error_response e))
                    M w2 ltac:(by apply within_add_session_key_to_response)) as Hout.
      unfold trace in Hout. simpl.
      destruct (run M (add_session_key_to_response req (error_response e)) w2)
        as [[r3 w3] t3].
      simpl in *. rewrite !saved_sessions_app, Hmw, Hout, !app_nil_r. simpl.
      intros Hin. destruct (Hlogin Hin) as (acct & random & H1 & H2 & -> & H3).
      exists acct, random. rewrite !in_app_iff. tauto.
  - pose proof (saved_sessions_none (λ _, True)
                  (add_session_key_to_response req (error_response e0))
                  M w1 ltac:(by apply within_add_session_key_to_response)) as Hout.
    unfold trace in Hout. simpl.
    destruct (run M (add_session_key_to_response req (error_response e0)) w1)
      as [[r3 w3] t3].
    simpl in *. rewrite !saved_sessions_app, Hmw, Hout. by intros [].
Qed.

End Saved.

(** ** Ownership *)

Section Owner.
Context `{E : Env}.

(** X6. A mail is updated or resent only for its owner: whatever
    [mail_mark_read] hands to [storage.update_mail], and whatever
    [mail_resend] hands to [smtp.resend_mail], is a mail whose [account] is
    the caller's name, and it is resent for the caller. *)
Theorem effects_only_for_owner (M : model) (mail_id : string) (req : request)
    (acct : account) w :
  (∀ m, In m (updated_mails (trace (run M (mail_mark_read mail_id req acct) w))) →
        getitem m "account" = Ok (VStr (name acct)))
  ∧ (∀ a m, In (a, m) (resent_mails (trace (run M (mail_resend mail_id req acct) w))) →
            a = acct ∧ getitem m "account" = Ok (VStr (name acct))).
Proof.
  split.
  - unfold mail_mark_read, trace. simpl.
    destruct (step M _ (GetMail mail_id) w) as [[m0|e] w1]; simpl; [|by intros ? []].
    destruct m0 as [| | | | | | |d]; simpl; try (by intros ? []).
    destruct (d !! "account") as [owner|] eqn:Hown; simpl; [|by intros ? []].
    destruct (ne_str owner (name acct)) eqn:Hne; simpl; [by intros ? []|].
    apply ne_str_false in Hne as ->.
    destruct (step M _ (UpdateMail _) w1) as [[[]|e] w2]; simpl;
      [destruct (json _) as [resp|e']; simpl|];
      (intros m [<-|[]]; simpl; by rewrite lookup_insert_ne, Hown).
  - unfold mail_resend, trace. simpl.
    destruct (step M _ (GetMail mail_id) w) as [[m0|e] w1]; simpl; [|by intros ?? []].
    destruct m0 as [| | | | | | |d]; simpl; try (by intros ?? []).
    destruct (d !! "account") as [owner|] eqn:Hown; simpl; [|by intros ?? []].
    destruct (ne_str owner (name acct)) eqn:Hne; simpl; [by intros ?? []|].
    apply ne_str_false in Hne as ->.
    destruct (getitem (json_body req) "to") as [to|e]; simpl; [|by intros ?? []].
    destruct (step M _ (ParseEmail to) w1) as [[to'|e] w2]; simpl; [|by intros ?? []].
    destruct (step M _ (ResendMail _ _ _) w2) as [[res|e] w3]; simpl;
      [destruct (json _) as [resp|e']; simpl|];
      (intros a m [[= <- <-]|[]]; simpl; by rewrite Hown).
Qed.

(** X7. The contents of a mailbox, a single message, the answer of
    mark-read and the answer of resend are returned only to the owner:
    when the handler responds, the stored record is a dictionary whose
    [account] is the caller's name. *)
Theorem responds_only_to_owner (M : model) (id : string) (req : request)
    (acct : account) (resp : response) w :
  (outcome (run M (mailbox id req acct) w) = Ok resp →
   ∃ d, (step M _ (GetMailbox id) w).1 = Ok (VDict d)
        ∧ d !! "account" = Some (VStr (name acct)))
  ∧ (outcome (run M (mail id req acct) w) = Ok resp
     ∨ outcome (run M (mail_mark_read id req acct) w) = Ok resp
     ∨ outcome (run M (mail_resend id req acct) w) = Ok resp →
     ∃ d, (step M _ (GetMail id) w).1 = Ok (VDict d)
          ∧ d !! "account" = Some (VStr (name acct))).
Proof.
  split.
  - unfold mailbox, outcome. simpl.
    destruct (step M _ (GetMailbox id) w) as [[m|e] w1]; simpl; [|discriminate].
    destruct m as [| | | | | | |d]; simpl; try discriminate.
    destruct (d !! "account") as [owner|] eqn:Hown; simpl; [|discriminate].
    destruct (ne_str owner (name acct)) eqn:Hne; simpl; [discriminate|].
    apply ne_str_false in Hne as ->. intros _. by exists d.
  - unfold mail, mail_mark_read, mail_resend, outcome. simpl.
    destruct (step M _ (GetMail id) w) as [[m|e] w1]; simpl;
      [|intros [|[|]]; discriminate].
    destruct m as [| | | | | | |d]; simpl; try (intros [|[|]]; discriminate).
    destruct (d !! "account") as [owner|] eqn:Hown; simpl;
      [|intros [|[|]]; discriminate].
    destruct (ne_str owner (name acct)) eqn:Hne; simpl;
      [intros [|[|]]; discriminate|].
    apply ne_str_false in Hne as ->. intros _. by exists d.
Qed.

End Owner.

(** ** Requests without a session *)

Section Anonymous.
Context `{E : Env}.

(** When [current_user] finds a user, it is the answer of its one call to
    [account_manager.get]. *)
Lemma current_user_found (M : model) w (u : account) w' t :
  run M current_user w = (Ok (Some u), w', t) →
  ∃ token, t = [Called (AccountGet token) (Ok (Some u))].
Proof.
  unfold current_user, get_session. simpl.
  destruct (session_slot w.1) as [l|]; simpl; [|discriminate].
  destruct (heap w.1 !! l ≫= _) as [token|]; simpl; [|discriminate].
  destruct token; simpl; try discriminate;
    match goal with |- context [step M _ ?c ?w0] => destruct (step M _ c w0) as [[?|?] ?] end;
    simpl; intros [= -> _ <-]; by eexists.
Qed.

(** X8. Nothing happens before authentication.  On a session-protected
    route, through both middlewares and the handler, every call other than
    the session lookup, the user loader [account_manager.get] and the
    entropy draw comes after a call of [account_manager.get] that found an
    account: either the request makes those three kinds of call only, or
    its calls up to one [account_manager.get] that found an account are of
    those kinds. *)
Theorem nothing_before_authentication (M : model) (r : route) (req : request) w :
  session_protected r = true →
  let t := trace (run M (handle_request r req) w) in
  Forall (λ e, event_in is_session_handling e = true) t
  ∨ ∃ t1 token acct t2,
      t = (t1 ++ Called (AccountGet token) (Ok (Some acct)) :: t2)%list
      ∧ Forall (λ e, event_in is_session_handling e = true) t1.
Proof.
  intros Hr t. subst t.
  assert (∀ resp w0, Forall (λ e, event_in is_session_handling e = true)
                       (trace (run M (add_session_key_to_response req resp) w0)))
    as Hout.
  { intros resp w0.
    exact (proj1 (within_run _ _ _ M w0
                    (within_add_session_key_to_response is_session_handling req resp
                       eq_refl))). }
  pose proof (proj1 (within_run _ _ _ M w
                       (within_add_session_to_request is_session_handling req
                          (λ _, eq_refl)))) as Hmw.
  assert (∃ route, dispatch r req = login_required route req) as [route Hroute]
    by (destruct r; try discriminate Hr; by eexists).
  unfold handle_request, trace in *. rewrite run_bind, run_catch, run_bind, Hroute.
  destruct (run M (add_session_to_request req) w) as [[[[]|e0] w1] t1]; simpl in Hmw.
  - rewrite run_login_required.
    pose proof (proj1 (within_run _ _ _ M w1
                         (within_current_user is_session_handling (λ _, eq_refl))))
      as Huser.
    unfold trace in Huser.
    destruct (run M current_user w1) as [[[[u|]|e] w2] t2] eqn:Hrun; simpl in Huser.
    + right. destruct (current_user_found M w1 u w2 t2 Hrun) as [token ->].
      destruct (run M (route req u) w2) as [[[resp|e] w3] t3]; simpl.
      * destruct (run M (add_session_key_to_response req resp) w3) as [[r4 w4] t4].
        simpl. exists t1, token, u, (t3 ++ t4)%list. split; [|done].
        by rewrite <- !app_assoc.
      * destruct (run M (add_session_key_to_response req (error_response e)) w3)
          as [[r4 w4] t4].
        simpl. exists t1, token, u, (t3 ++ t4)%list. split; [|done].
        by rewrite app_nil_r, <- !app_assoc.
    + left. simpl. specialize (Hout (error_response
                                       (Forbidden "This route need authentification")) w2).
      destruct (run M (add_session_key_to_response req _) w2) as [[r4 w4] t4].
      simpl in *. rewrite !Forall_app. repeat split; try done; constructor.
    + left. simpl. specialize (Hout (error_response e) w2).
      destruct (run M (add_session_key_to_response req _) w2) as [[r4 w4] t4].
      simpl in *. rewrite !Forall_app. repeat split; try done; constructor.
  - left. simpl. specialize (Hout (error_response e0) w1).
    destruct (run M (add_session_key_to_response req _) w1) as [[r4 w4] t4].
    simpl in *. rewrite !Forall_app. repeat split; try done; constructor.
Qed.

Lemma run_current_user_empty (M : model) (σ : objects) (s : state M) :
  run M current_user (with_empty_session σ, s) = (Ok None, (with_empty_session σ, s), []).
Proof.
  unfold current_user, get_session, with_empty_session. simpl.
  by rewrite lookup_insert_eq.
Qed.

(** X9. A request to a session-protected route that brings no
    [session_key] cookie is answered with status 403 and a newly generated
    [session_key] cookie, after no other call than the entropy draw.  One
    that brings an empty [session_key] cookie is answered with status 403
    too, but with no cookie, and no call is made at all. *)
Theorem anonymous_request_forbidden (M : model) (r : route) (req : request)
    (σ : objects) (s : state M) :
  session_protected r = true →
  let refused := error_response (Forbidden "This route need authentification") in
  (cookies req !! "session_key" = None →
   ∀ random w', step M _ Urandom16 (with_empty_session σ, s) = (Ok random, w') →
     run M (handle_request r req) (σ, s)
     = (Ok (set_cookie "session_key" (uuid_hex (uuid4 random)) refused), w',
        [Called Urandom16 (Ok random)]))
  ∧ (cookies req !! "session_key" = Some "" →
     run M (handle_request r req) (σ, s) = (Ok refused, (with_empty_session σ, s), []))
  ∧ status refused = 403.
Proof.
  intros Hr refused.
  assert (run M (dispatch r req) (with_empty_session σ, s)
          = (Exn (Forbidden "This route need authentification"),
             (with_empty_session σ, s), [])) as Hdispatch.
  { destruct r; simpl in Hr; try discriminate; simpl dispatch;
      by rewrite run_login_required, run_current_user_empty. }
  assert (run M (add_session_to_request req) (σ, s) = (Ok tt, (with_empty_session σ, s), [])
          → run M (catch (_ ← add_session_to_request req; dispatch r req)
                         (λ e, mret (error_response e))) (σ, s)
            = (Ok refused, (with_empty_session σ, s), [])) as Hcatch.
  { intros Hmw. rewrite run_catch, run_bind, Hmw, Hdispatch. done. }
  split; [|split; [|done]].
  - intros Hcookie random w' Hrand. unfold handle_request.
    rewrite run_bind, Hcatch.
    + unfold add_session_key_to_response. rewrite Hcookie.
      unfold with_empty_session in *. simpl in *. rewrite lookup_empty. simpl.
      by rewrite Hrand.
    + unfold add_session_to_request. by rewrite Hcookie.
  - intros Hcookie. unfold handle_request.
    rewrite run_bind, Hcatch.
    + unfold add_session_key_to_response. by rewrite Hcookie.
    + unfold add_session_to_request. by rewrite Hcookie.
Qed.

End Anonymous.

(** ** The [session_key] cookie of a response *)

Section Cookies.
Context `{E : Env}.

Lemma json_no_cookie v resp : json v = Ok resp → resp_cookies resp = ∅.
Proof. intros H. by destruct (json_inv _ _ H) as [-> _]. Qed.

(** No handler but [login] and [logout] sets a cookie. *)
Lemma dispatch_sets_no_cookie (r : route) (req : request) :
  r ≠ RLogin → r ≠ RLogout →
  within any_call (λ resp, resp_cookies resp = ∅) (dispatch r req).
Proof.
  intros Hlogin Hlogout.
  destruct r; try done; simpl dispatch;
    try (apply within_login_required; [done|intros u]).
  - unfold account_route. footprint; by eapply json_no_cookie.
  - unfold mailboxes. footprint; by eapply json_no_cookie.
  - unfold mailbox. footprint; by eapply json_no_cookie.
  - unfold mail. footprint; by eapply json_no_cookie.
  - unfold mail_mark_read. footprint; by eapply json_no_cookie.
  - unfold mail_download_attachment. footprint; by eapply json_no_cookie.
  - unfold sendmail.
    eapply (within_bind _ (λ _, True)); [by apply within_await|]. intros from_addr _.
    eapply (within_bind _ (λ _, True)); [by apply within_lift|]. intros rs _.
    eapply (within_bind _ (λ _, True));
      [apply within_comprehension; intros a; by apply within_parse_recipient|].
    intros all_addrs _.
    eapply (within_bind _ (λ _, True)); [by apply within_lift|]. intros rs' _.
    eapply (within_bind _ (λ _, True));
      [apply within_comprehension; intros a; by apply within_parse_recipient|].
    intros tos _.
    eapply (within_bind _ (λ _, True)); [by apply within_lift|]. intros rs'' _.
    eapply (within_bind _ (λ _, True));
      [apply within_comprehension; intros a; by apply within_parse_recipient|].
    intros ccs _. footprint; by eapply json_no_cookie.
  - unfold mail_resend. footprint; by eapply json_no_cookie.
  - unfold contacts_search. footprint; by eapply json_no_cookie.
Qed.

(** X10. Which responses carry a [session_key] cookie.  A request that
    brings none leaves with one, whatever the route and whatever the
    handler did; a request that brings one gets no cookie at all from any
    route but login and logout. *)
Theorem session_cookie_policy (M : model) (r : route) (req : request)
    (resp : response) w :
  outcome (run M (handle_request r req) w) = Ok resp →
  (cookies req !! "session_key" = None → is_Some (resp_cookies resp !! "session_key"))
  ∧ (is_Some (cookies req !! "session_key") → r ≠ RLogin → r ≠ RLogout →
     resp_cookies resp = ∅).
Proof.
  unfold handle_request, outcome. rewrite run_bind.
  destruct (run M (catch _ _) w) as [[[resp0|e] w1] t1] eqn:Hcatch; simpl; [|discriminate].
  intros Hresp. split.
  - intros Hcookie. revert Hresp. unfold add_session_key_to_response.
    rewrite Hcookie.
    destruct (resp_cookies resp0 !! "session_key") as [key|] eqn:Hkey; simpl.
    + intros [= <-]. by eexists.
    + destruct (step M _ Urandom16 w1) as [[random|e] w2]; simpl; [|discriminate].
      intros [= <-]. simpl. rewrite lookup_insert_eq. by eexists.
  - intros [key Hcookie] Hlogin Hlogout.
    assert (resp_cookies resp0 = ∅) as Hnone.
    { assert (within any_call (λ resp, resp_cookies resp = ∅)
                (catch (_ ← add_session_to_request req; dispatch r req)
                       (λ e, mret (error_response e)))) as Hwithin.
      { apply within_catch; [|intros e; reflexivity].
        eapply (within_bind _ (λ _, True));
          [by apply within_add_session_to_request|].
        intros _ _. by apply dispatch_sets_no_cookie. }
      apply (proj2 (within_run _ _ _ M w Hwithin)).
      unfold outcome. by rewrite Hcatch. }
    revert Hresp. unfold add_session_key_to_response. rewrite Hcookie. simpl.
    by intros [= <-].
Qed.

End Cookies.

(** ** Outgoing mail *)

Section Sendmail.
Context `{E : Env}.

Lemma run_parse_recipient (M : model) (parse : value → value) (a addr : value) w :
  (∀ a w, step M _ (ParseEmail a) w = (Ok (parse a), w)) →
  recipient_field "address" a = Some addr →
  run M (parse_recipient a) w
  = (Ok (parse addr), w, [Called (ParseEmail addr) (Ok (parse addr))]).
Proof.
  intros Hparse Haddr. unfold parse_recipient.
  destruct a as [| | | | | | |d]; simpl in Haddr; try discriminate.
  simpl. rewrite Haddr. simpl. by rewrite Hparse.
Qed.

(** A comprehension over well-formed recipients, with a [parse_email]
    that answers as the function [parse] and changes nothing. *)
Lemma run_comprehension (M : model) (parse : value → value)
    (cond : value → result bool) (sel : value → bool) (rs : list value) w :
  (∀ a w, step M _ (ParseEmail a) w = (Ok (parse a), w)) →
  Forall recipient_ok rs →
  (∀ a, recipient_ok a → cond a = Ok (sel a)) →
  run M (comprehension cond parse_recipient rs) w
  = (Ok (addresses parse (List.filter sel rs)), w,
     parse_events parse (List.filter sel rs)).
Proof.
  intros Hparse Hrs Hcond. induction Hrs as [|a rs Ha _ IH]; [done|].
  cbn [comprehension List.filter].
  rewrite run_bind, (Hcond a Ha), run_lift. cbv beta iota.
  destruct (sel a).
  - destruct Ha as [[addr Haddr] _].
    rewrite run_bind, (run_parse_recipient M parse a addr) by done. cbv beta iota.
    rewrite run_bind, IH. cbv beta iota.
    unfold addresses, parse_events. simpl. rewrite Haddr. simpl.
    by rewrite app_nil_r.
  - rewrite IH. done.
Qed.

Lemma has_type_of_type (kind : string) (a : value) :
  recipient_ok a → has_type kind a = Ok (of_type kind a).
Proof.
  intros [_ [t Ht]]. unfold has_type, of_type.
  destruct a as [| | | | | | |d]; simpl in Ht; try discriminate.
  simpl. by rewrite Ht.
Qed.

(** X11. What [sendmail] sends.  With well-formed recipients and a
    [parse_email] that answers as a function, the envelope handed to
    [send_mail] holds the parsed address of every recipient, whatever its
    type; the message is made from the subject, the content, the parsed
    address of the account, the recipients of type [to] and of type [cc]
    and the attachments, which default to the empty list; and the response
    is [json] of the answer of [send_mail], made after the mail was
    sent. *)
Theorem sendmail_envelope (M : model) (parse : value → value) (req : request)
    (acct : account) (d : gmap string value) (rs : list value)
    (subject content msg result : value) w w1 w2 :
  json_body req = VDict d →
  d !! "recipients" = Some (VList rs) → Forall recipient_ok rs →
  d !! "subject" = Some subject → d !! "content" = Some content →
  (∀ a w, step M _ (ParseEmail a) w = (Ok (parse a), w)) →
  let from_addr := parse (VStr (address acct)) in
  let all_addrs := VList (addresses parse rs) in
  let tos := VList (addresses parse (List.filter (of_type "to") rs)) in
  let ccs := VList (addresses parse (List.filter (of_type "cc") rs)) in
  let attachments := default (VList []) (d !! "attachments") in
  step M _ (MakeMsg subject content from_addr tos ccs attachments) w = (Ok msg, w1) →
  step M _ (SendMail acct msg from_addr all_addrs) w1 = (Ok result, w2) →
  run M (sendmail req acct) w
  = (json result, w2,
     (Called (ParseEmail (VStr (address acct))) (Ok from_addr)
      :: parse_events parse rs
      ++ parse_events parse (List.filter (of_type "to") rs)
      ++ parse_events parse (List.filter (of_type "cc") rs)
      ++ [Called (MakeMsg subject content from_addr tos ccs attachments) (Ok msg);
          Called (SendMail acct msg from_addr all_addrs) (Ok result)])%list).
Proof.
  intros Hbody Hrs Hok Hsubject Hcontent Hparse from_addr all_addrs tos ccs attachments
    Hmake Hsend.
  unfold sendmail. rewrite Hbody.
  rewrite run_bind, run_await, Hparse. simpl.
  rewrite Hrs. simpl.
  rewrite run_bind, (run_comprehension M parse _ (λ _, true)) by done. simpl.
  rewrite run_bind, (run_comprehension M parse _ (of_type "to"))
    by (try done; apply has_type_of_type). simpl.
  rewrite run_bind, (run_comprehension M parse _ (of_type "cc"))
    by (try done; apply has_type_of_type). simpl.
  rewrite Hsubject, Hcontent. simpl.
  assert (List.filter (λ _ : value, true) rs = rs) as ->.
  { clear. induction rs as [|a rs IH]; simpl; congruence. }
  fold from_addr tos ccs attachments all_addrs.
  rewrite Hmake. simpl. rewrite Hsend, run_bind, run_lift. simpl.
  by rewrite run_lift.
Qed.

End Sendmail.

Section SendmailErrors.
Context `{E : Env}.

(** X12. A request to send a mail whose JSON body lacks [recipients],
    [subject] or [content] (or is no dictionary) sends nothing: no message
    is made, [send_mail] is not called, and the handler does not respond
    normally, whatever the collaborators answer. *)
Theorem sendmail_needs_its_fields (M : model) (req : request) (acct : account)
    (k : string) (e : exn) w :
  k = "recipients" ∨ k = "subject" ∨ k = "content" →
  getitem (json_body req) k = Exn e →
  Forall (λ ev, event_in is_send ev = false) (trace (run M (sendmail req acct) w))
  ∧ ∀ resp, outcome (run M (sendmail req acct) w) ≠ Ok resp.
Proof.
  intros Hk Hmissing.
  pose (P := λ X (c : call X), negb (is_send X c)).
  assert (within P (λ _ : response, False) (sendmail req acct)) as Hwithin.
  { unfold sendmail.
    eapply (within_bind _ (λ _, True)); [by apply within_await|]. intros from_addr _.
    destruct Hk as [->|Hk].
    { rewrite Hmissing. exact I. }
    eapply (within_bind _ (λ _, True)); [by apply within_lift|]. intros rs _.
    eapply (within_bind _ (λ _, True));
      [apply within_comprehension; intros a; by apply within_parse_recipient|].
    intros all_addrs _.
    eapply (within_bind _ (λ _, True)); [by apply within_lift|]. intros rs' _.
    eapply (within_bind _ (λ _, True));
      [apply within_comprehension; intros a; by apply within_parse_recipient|].
    intros tos _.
    eapply (within_bind _ (λ _, True)); [by apply within_lift|]. intros rs'' _.
    eapply (within_bind _ (λ _, True));
      [apply within_comprehension; intros a; by apply within_parse_recipient|].
    intros ccs _.
    eapply (within_bind _ (λ _, True)); [by apply within_lift|]. intros attachments _.
    destruct Hk as [->| ->].
    { rewrite Hmissing. exact I. }
    eapply (within_bind _ (λ _, True)); [by apply within_lift|]. intros subject _.
    rewrite Hmissing. exact I. }
  destruct (within_run _ _ _ M w Hwithin) as [Htrace Hout]. split.
  - eapply Forall_impl; [exact Htrace|].
    intros [X c res]. unfold P. simpl. by destruct (is_send X c).
  - intros resp Hresp. exact (Hout resp Hresp).
Qed.

End SendmailErrors.

(** ** Records that were already reshaped *)

Lemma for_each_idempotent {A} (f : A → result A) (l l' : list A) :
  (∀ x y, f x = Ok y → f y = Ok y) → for_each f l = Ok l' → for_each f l' = Ok l'.
Proof.
  intros Hf. revert l'. induction l as [|x l IH]; simpl; intros l' Hl.
  - by injection Hl as <-.
  - destruct (f x) as [y|e] eqn:Hx; simpl in Hl; [|discriminate].
    destruct (for_each f l) as [ys|e]; simpl in Hl; [|discriminate].
    injection Hl as <-. simpl. rewrite (Hf x y Hx). simpl.
    by rewrite (IH ys eq_refl).
Qed.

Lemma for_in_place_idempotent (f : value → result value) (v v' : value) :
  (∀ x y, f x = Ok y → f y = Ok y) → for_in_place f v = Ok v' →
  for_in_place f v' = Ok v'.
Proof.
  intros Hf. destruct v; simpl; intros Hv;
    try (destruct (for_each f _) as [ys|e] eqn:Hxs; simpl in Hv; [|discriminate];
         injection Hv as <-; simpl; by rewrite Hxs);
    try discriminate.
  destruct (for_each f l) as [l'|e] eqn:Hl; simpl in Hv; [|discriminate].
  injection Hv as <-. simpl. by rewrite (for_each_idempotent f l l' Hf Hl).
Qed.

Section Idempotent.
Context `{E : Env}.

Lemma reshape_datetime_idempotent k m m' :
  reshape_datetime k m = Ok m' → reshape_datetime k m' = Ok m'.
Proof.
  unfold reshape_datetime.
  destruct m as [| | | | | | |d]; simpl; try discriminate.
  destruct (d !! k) as [x|] eqn:Hk; simpl; [|discriminate].
  destruct x; simpl; intros [= <-]; simpl; rewrite ?Hk, ?lookup_insert_eq; done.
Qed.

Lemma name_attachment_idempotent mail_id att att' :
  name_attachment mail_id att = Ok att' → name_attachment mail_id att' = Ok att'.
Proof.
  intros Hatt.
  destruct (name_attachment_spec _ _ _ Hatt)
    as (a & a' & idx & filename & -> & -> & Hidx & Hname & Hdefault & Hurl & Hframe).
  assert (truthy filename = true) as Htruthy.
  { unfold name_attachment in Hatt. simpl in Hatt.
    destruct (a !! "filename") as [f|] eqn:Hf; simpl in *.
    - destruct (truthy f) eqn:Hf'; [by rewrite Hdefault|].
      simpl in Hatt.
      destruct (a !! "type") as [type|]; simpl in Hatt; [|discriminate].
      destruct (guess_extension_of type) as [g|]; simpl in Hatt; [|discriminate].
      rewrite Hidx in Hatt. simpl in Hatt.
      rewrite (lookup_insert_ne _ "filename" "index"), Hidx in Hatt by done.
      simpl in Hatt. rewrite lookup_insert_eq in Hatt. simpl in Hatt.
      injection Hatt as <-.
      rewrite lookup_insert_ne, lookup_insert_eq in Hname by done.
      by injection Hname as <-.
    - destruct Hdefault as (type & _ & ->). done. }
  unfold name_attachment. simpl. rewrite Hname. simpl. rewrite Htruthy. simpl.
  rewrite (Hframe "index"), Hidx by done. simpl. rewrite Hname. simpl.
  f_equal. f_equal. by apply insert_id.
Qed.

End Idempotent.

Section FixedPoints.
Context `{E : Env}.

(** X13. Serving a record twice.  The handlers update the records the
    storage hands them in place, and test each field before they reshape
    it.  When the storage later answers with a record as it was returned
    in the body of an earlier response, the mailbox listing, the contents
    of a mailbox and the single message give that same body again. *)
Theorem served_records_are_fixed_points (M M' : model) (id : string)
    (req : request) (acct : account) (v body : value) w w' :
  ((step M _ (GetMailboxes acct) w).1 = Ok v →
   outcome (run M (mailboxes req acct) w) = Ok (json_response body) →
   (step M' _ (GetMailboxes acct) w').1 = Ok body →
   outcome (run M' (mailboxes req acct) w') = Ok (json_response body))
  ∧ ((step M _ (GetMailbox id) w).1 = Ok v →
     outcome (run M (mailbox id req acct) w) = Ok (json_response body) →
     (step M' _ (GetMailbox id) w').1 = Ok body →
     outcome (run M' (mailbox id req acct) w') = Ok (json_response body))
  ∧ ((step M _ (GetMail id) w).1 = Ok v →
     outcome (run M (mail id req acct) w) = Ok (json_response body) →
     (step M' _ (GetMail id) w').1 = Ok body →
     outcome (run M' (mail id req acct) w') = Ok (json_response body)).
Proof.
  split; [|split].
  - intros Hget Hresp Hget'.
    destruct (mailboxes_inv M req acct w v _ Hget Hresp) as (v' & Hv' & [= <-] & Hacc).
    apply (for_in_place_idempotent _ _ _
             (reshape_datetime_idempotent "last_message")) in Hv'.
    unfold mailboxes, outcome. simpl.
    destruct (step M' _ (GetMailboxes acct) w') as [r w1]. simpl in *. subst r.
    simpl. rewrite Hv'. simpl. by rewrite (json_accepted _ Hacc).
  - intros Hget Hresp Hget'.
    destruct (mailbox_inv M id req acct w v _ Hget Hresp)
      as (d & msgs & msgs' & -> & Hown & Hmsgs & Hfor & [= ->] & Hacc).
    apply (for_in_place_idempotent _ _ _ (reshape_datetime_idempotent "date")) in Hfor.
    unfold mailbox, outcome. simpl.
    destruct (step M' _ (GetMailbox id) w') as [r w1]. simpl in *. subst r.
    simpl. rewrite (lookup_insert_ne _ "messages" "account"), Hown by done. simpl.
    rewrite String.eqb_refl. simpl. rewrite lookup_insert_eq. simpl.
    rewrite Hfor. simpl. rewrite insert_insert_eq. by rewrite (json_accepted _ Hacc).
  - intros Hget Hresp Hget'.
    destruct (mail_inv M id req acct w v _ Hget Hresp)
      as (d & d1 & atts & atts' & -> & Hown & Hdate & Hatts & Hfor & [= ->] & Hacc).
    apply (for_in_place_idempotent _ _ _ (name_attachment_idempotent id)) in Hfor.
    pose proof (reshape_datetime_idempotent _ _ _ Hdate) as Hdate1.
    destruct (reshape_datetime_spec _ _ _ Hdate)
      as (d0 & d2 & [= <-] & [= <-] & _ & _ & Hframe).
    unfold mail, outcome. simpl.
    destruct (step M' _ (GetMail id) w') as [r w1]. simpl in *. subst r.
    simpl. rewrite (lookup_insert_ne _ "attachments" "account"), (Hframe "account"), Hown
      by done. simpl.
    rewrite String.eqb_refl. simpl.
    assert (reshape_datetime "date" (VDict (<["attachments" := atts']> d1))
            = Ok (VDict (<["attachments" := atts']> d1))) as ->.
    { unfold reshape_datetime in *. simpl in *.
      rewrite (lookup_insert_ne _ "attachments" "date") by done.
      destruct (d1 !! "date") as [x|] eqn:Hx; simpl in *; [|discriminate].
      destruct x; simpl in *; try done.
      injection Hdate1 as Hdate1.
      apply (f_equal (λ m : gmap string value, m !! "date")) in Hdate1.
      rewrite lookup_insert_eq, Hx in Hdate1. discriminate Hdate1. }
    simpl. rewrite lookup_insert_eq. simpl. rewrite Hfor. simpl.
    rewrite insert_insert_eq. by rewrite (json_accepted _ Hacc).
Qed.

End FixedPoints.

(** ** A login that fails *)

Section FailedLogin.
Context `{E : Env}.

(** X14. A login that fails leaves nothing behind.  When
    [account_manager.authenticate] finds no account, the request is
    answered with the 403 of [Forbidden] and the stored sessions are as
    they were: no session was created for the key of any cookie. *)
Theorem failed_login_stores_nothing (B : backend) (req : request)
    (w : objects * state (durable B)) :
  answer B _ (Authenticate (json_body req)) = Ok None →
  let x := run (durable B) (handle_request RLogin req) w in
  sessions (final x).2 = sessions w.2
  ∧ ∃ resp, outcome x = Ok resp ∧ status resp = 403
      ∧ resp_body resp
        = ErrorBody (Forbidden "Authentification failed. Check your credentials.").
Proof.
  intros Hauth x. split.
  - apply durable_login_request_failed. intros acct. by rewrite Hauth.
  - subst x. unfold handle_request, outcome.
    rewrite run_bind, run_catch, run_bind.
    destruct (durable_middleware B req w) as (σ1 & t1 & -> & _).
    simpl dispatch. unfold login. simpl. rewrite Hauth. simpl.
    unfold add_session_key_to_response, error_response. simpl.
    rewrite lookup_empty.
    destruct (cookies req !! "session_key"); simpl; by eexists.
Qed.

End FailedLogin.

(** ** The application object *)

Lemma get_app_initialised (s : module_state) (a : application) :
  app s = Some a → get_app s = (Some a, s).
Proof. intros Ha. unfold get_app. rewrite Ha. simpl. by rewrite Ha. Qed.

Lemma get_apps_initialised (n : nat) (s : module_state) (a : application) :
  app s = Some a → get_apps n s = (replicate n (Some a), s).
Proof.
  intros Ha. induction n as [|n IH]; [done|]. cbn [get_apps replicate].
  by rewrite (get_app_initialised s a Ha), IH.
Qed.

(** X15. [get_app] keeps one application.  From the module as it is
    loaded, any number of calls of [get_app] return the same application,
    the one the first call created, and no other application is created;
    [init_app] itself makes a new application each time it is called. *)
Theorem get_app_keeps_one_application (n : nat) (s : module_state) :
  app s = None →
  (∃ a, get_apps (S n) s = (replicate (S n) (Some a), mk_module (Some a) (S (created s)))
        ∧ app_id a = created s)
  ∧ app (init_app (init_app s)) ≠ app (init_app s).
Proof.
  intros Hnone. split.
  - exists (mk_application (created s)
              {[ "log_config" := VNone; "AUTH_LOGIN_ENDPOINT" := VStr "login" ]}).
    split; [|done]. cbn [get_apps]. unfold get_app at 1. rewrite Hnone.
    unfold init_app. cbn [app].
    by rewrite (get_apps_initialised n (mk_module _ _) _ eq_refl).
  - simpl. intros [= H]. lia.
Qed.

(** ** No datetime is left in a reshaped field *)

Section NoDatetime.
Context `{E : Env}.

Lemma reshaped_no_datetime k m m' :
  entry_reshaped k m m' → no_datetime k m'.
Proof.
  intros (d & d' & -> & -> & [x Hx] & Hfield & _).
  unfold field_reshaped in Hfield. rewrite Hx in Hfield.
  unfold no_datetime. simpl.
  destruct x; rewrite Hfield; by eexists.
Qed.

(** X16. After the reshaping no datetime object is left where the handler
    looked: in the mailbox listing no entry has a datetime as
    [last_message], in the contents of a mailbox no message has one as
    [date], and the single message has none as [date]. *)
Theorem no_datetime_left (M : model) (id : string) (req : request) (acct : account)
    (resp : response) w :
  (∀ ms, (step M _ (GetMailboxes acct) w).1 = Ok (VList ms) →
     outcome (run M (mailboxes req acct) w) = Ok resp →
     ∃ ms', resp = json_response (VList ms') ∧ Forall (no_datetime "last_message") ms')
  ∧ (∀ d ms, (step M _ (GetMailbox id) w).1 = Ok (VDict d) →
     d !! "messages" = Some (VList ms) →
     outcome (run M (mailbox id req acct) w) = Ok resp →
     ∃ ms', resp = json_response (VDict (<["messages" := VList ms']> d))
            ∧ Forall (no_datetime "date") ms')
  ∧ (∀ m, (step M _ (GetMail id) w).1 = Ok m →
     outcome (run M (mail id req acct) w) = Ok resp →
     ∃ m', resp = json_response m' ∧ no_datetime "date" m').
Proof.
  assert (∀ k ms ms', Forall2 (entry_reshaped k) ms ms' → Forall (no_datetime k) ms')
    as Hall.
  { intros k ms ms' H. induction H; constructor; eauto using reshaped_no_datetime. }
  split; [|split].
  - intros ms Hget Hresp.
    destruct (mailboxes_inv M req acct w _ resp Hget Hresp) as (v' & Hv' & -> & _).
    destruct (reshape_all_spec _ _ _ ms Hv' eq_refl) as (ms' & -> & Hms').
    exists ms'. eauto.
  - intros d ms Hget Hmsgs Hresp.
    destruct (mailbox_inv M id req acct w _ resp Hget Hresp)
      as (d0 & msgs & msgs' & [= <-] & _ & Hmsgs0 & Hfor & -> & _).
    rewrite Hmsgs in Hmsgs0. injection Hmsgs0 as <-.
    destruct (reshape_all_spec _ _ _ ms Hfor eq_refl) as (ms' & -> & Hms').
    exists ms'. eauto.
  - intros m Hget Hresp.
    destruct (mail_inv M id req acct w _ resp Hget Hresp)
      as (d & d1 & atts & atts' & -> & _ & Hdate & _ & _ & -> & _).
    eexists. split; [done|].
    destruct (reshaped_no_datetime _ _ _ (reshape_datetime_spec _ _ _ Hdate))
      as (x & Hx & Hnot).
    exists x. split; [|done]. simpl in *.
    by rewrite (lookup_insert_ne _ "attachments" "date").
Qed.

End NoDatetime.

(** ** What the reshaping leaves alone *)

Section Kept.
Context `{E : Env}.

(** X18. What the reshaping leaves alone.  The single message is returned
    with every field but [date] and [attachments] as the storage gave it,
    and with as many attachments; the contents of a mailbox with every
    field but [messages] as the storage gave it, and with as many
    messages; the mailbox listing with as many entries. *)
Theorem responses_keep_the_rest (M : model) (id : string) (req : request)
    (acct : account) (resp : response) w :
  (∀ d atts, (step M _ (GetMail id) w).1 = Ok (VDict d) →
     d !! "attachments" = Some (VList atts) →
     outcome (run M (mail id req acct) w) = Ok resp →
     ∃ d' atts', resp = json_response (VDict d') ∧ d' !! "attachments" = Some (VList atts')
       ∧ length atts' = length atts
       ∧ ∀ k, k ≠ "date" → k ≠ "attachments" → d' !! k = d !! k)
  ∧ (∀ d ms, (step M _ (GetMailbox id) w).1 = Ok (VDict d) →
     d !! "messages" = Some (VList ms) →
     outcome (run M (mailbox id req acct) w) = Ok resp →
     ∃ d' ms', resp = json_response (VDict d') ∧ d' !! "messages" = Some (VList ms')
       ∧ length ms' = length ms
       ∧ ∀ k, k ≠ "messages" → d' !! k = d !! k)
  ∧ (∀ ms, (step M _ (GetMailboxes acct) w).1 = Ok (VList ms) →
     outcome (run M (mailboxes req acct) w) = Ok resp →
     ∃ ms', resp = json_response (VList ms') ∧ length ms' = length ms).
Proof.
  split; [|split].
  - intros d atts Hget Hatts Hresp.
    destruct (mail_inv M id req acct w _ resp Hget Hresp)
      as (d0 & d1 & atts0 & v' & [= <-] & _ & Hdate & Hatts1 & Hfor & -> & _).
    destruct (reshape_datetime_spec _ _ _ Hdate)
      as (d0 & d2 & [= <-] & [= <-] & _ & _ & Hframe).
    rewrite (Hframe "attachments"), Hatts in Hatts1 by done. injection Hatts1 as <-.
    destruct (name_all_spec _ _ _ Hfor) as (atts' & -> & Hall).
    exists (<["attachments" := VList atts']> d1), atts'.
    split; [done|]. split; [by rewrite lookup_insert_eq|].
    split; [symmetry; exact (Forall2_length _ _ _ Hall)|].
    intros k Hk1 Hk2. rewrite lookup_insert_ne by done. by apply Hframe.
  - intros d ms Hget Hmsgs Hresp.
    destruct (mailbox_inv M id req acct w _ resp Hget Hresp)
      as (d0 & msgs & msgs' & [= <-] & _ & Hmsgs0 & Hfor & -> & _).
    rewrite Hmsgs in Hmsgs0. injection Hmsgs0 as <-.
    destruct (reshape_all_spec _ _ _ ms Hfor eq_refl) as (ms' & -> & Hall).
    exists (<["messages" := VList ms']> d), ms'.
    split; [done|]. split; [by rewrite lookup_insert_eq|].
    split; [symmetry; exact (Forall2_length _ _ _ Hall)|].
    intros k Hk. by rewrite lookup_insert_ne.
  - intros ms Hget Hresp.
    destruct (mailboxes_inv M req acct w _ resp Hget Hresp) as (v' & Hv' & -> & _).
    destruct (reshape_all_spec _ _ _ ms Hv' eq_refl) as (ms' & -> & Hall).
    exists ms'. split; [done|]. symmetry. exact (Forall2_length _ _ _ Hall).
Qed.

End Kept.

(** ** The further properties on the small installation *)

Section Examples.
#[local] Existing Instance demo_env.

Lemma get_routes_are_safe_witness :
  method (RMail "m2") = GET
  ∧ Forall (λ e, event_in is_write e = false)
      (trace (run demo (handle_request (RMail "m2") (with_cookie first_key)) logged_in)).
Proof.
  split; [reflexivity|].
  exact (get_routes_are_safe demo (RMail "m2") (with_cookie first_key) logged_in eq_refl).
Defined.

Lemma only_login_stores_sessions_witness :
  RLogout ≠ RLogin
  ∧ sessions (final (run demo (handle_request RLogout (with_cookie first_key))
                       (logged_in.1, logged_in.2))).2
    = sessions logged_in.2.
Proof.
  assert (RLogout ≠ RLogin) as Hr by discriminate.
  split; [exact Hr|].
  exact (only_login_stores_sessions demo_backend RLogout (with_cookie first_key)
           logged_in.1 logged_in.2 Hr).
Defined.

Lemma login_round_trip_witness :
  answer demo_backend _ (Authenticate (json_body good_login)) = Ok (Some test_account)
  ∧ answer demo_backend _ (AccountGet (VStr (name test_account))) = Ok (Some test_account)
  ∧ dumps_raises (to_json test_account) = None
  ∧ ∃ resp key,
      outcome (run demo (handle_request RLogin good_login) (start.1, start.2)) = Ok resp
      ∧ resp_cookies resp !! "session_key" = Some key
      ∧ outcome (run demo (handle_request RAccount (with_cookie key))
                   (final (run demo (handle_request RLogin good_login) (start.1, start.2))))
        = Ok (json_response (to_json test_account)).
Proof.
  assert (answer demo_backend _ (Authenticate (json_body good_login))
          = Ok (Some test_account)) as Hauth by (vm_compute; reflexivity).
  assert (answer demo_backend _ (AccountGet (VStr (name test_account)))
          = Ok (Some test_account)) as Hget by reflexivity.
  assert (dumps_raises (to_json test_account) = None) as Hprofile
    by (vm_compute; reflexivity).
  split; [exact Hauth|]. split; [exact Hget|]. split; [exact Hprofile|].
  exact (login_round_trip demo_backend good_login test_account test_account
           start.1 start.2 Hauth Hget Hprofile Hprofile).
Defined.

Lemma sessions_saved_under_generated_keys_witness :
  let t := trace (run demo (handle_request RLogin good_login) start) in
  In (first_key, 1%nat) (saved_sessions t)
  ∧ ∃ acct random,
      In (Called (Authenticate (json_body good_login)) (Ok (Some acct))) t
      ∧ In (Called Urandom16 (Ok random)) t
      ∧ first_key = uuid_hex (uuid4 random)
      ∧ In (Called (GetUserSession first_key) (Ok 1%nat)) t.
Proof.
  intros t.
  assert (In (first_key, 1%nat) (saved_sessions t)) as Hin
    by (vm_compute; left; reflexivity).
  split; [exact Hin|].
  exact (proj2 (sessions_saved_under_generated_keys demo RLogin good_login start
                  first_key 1%nat Hin)).
Defined.

Lemma nothing_before_authentication_witness :
  let t := trace (run demo (handle_request RSendmail (with_cookie "stale")) start) in
  session_protected RSendmail = true
  ∧ (Forall (λ e, event_in is_session_handling e = true) t
     ∨ ∃ t1 token acct t2,
         t = (t1 ++ Called (AccountGet token) (Ok (Some acct)) :: t2)%list
         ∧ Forall (λ e, event_in is_session_handling e = true) t1).
Proof.
  intros t. split; [reflexivity|].
  exact (nothing_before_authentication demo RSendmail (with_cookie "stale") start eq_refl).
Defined.

Lemma anonymous_request_forbidden_witness :
  let refused := error_response (Forbidden "This route need authentification") in
  session_protected RMailboxes = true
  ∧ cookies bad_login !! "session_key" = None
  ∧ run demo (handle_request RMailboxes bad_login) (start.1, start.2)
    = (Ok (set_cookie "session_key" (uuid_hex (uuid4 (2 ^ 127))) refused),
       (with_empty_session start.1, mk_store ∅ 1),
       [Called Urandom16 (Ok (2 ^ 127))])
  ∧ status refused = 403.
Proof.
  intros refused.
  destruct (anonymous_request_forbidden demo RMailboxes bad_login start.1 start.2 eq_refl)
    as (Hnone & _ & Hstatus).
  split; [reflexivity|]. split; [reflexivity|]. split; [|exact Hstatus].
  apply (Hnone eq_refl (2 ^ 127) (with_empty_session start.1, mk_store ∅ 1)).
  vm_compute. reflexivity.
Defined.

Lemma session_cookie_policy_witness :
  let x := run demo (handle_request RMailboxes bad_login) start in
  ∃ resp, outcome x = Ok resp ∧ cookies bad_login !! "session_key" = None
          ∧ is_Some (resp_cookies resp !! "session_key").
Proof.
  intros x.
  assert (∃ resp, outcome x = Ok resp) as [resp Hresp] by (vm_compute; eauto).
  exists resp. split; [exact Hresp|]. split; [reflexivity|].
  exact (proj1 (session_cookie_policy demo RMailboxes bad_login resp start Hresp) eq_refl).
Defined.

Lemma sendmail_envelope_witness :
  let addr := VStr "alt.n2-75zy2uk@yopmail.com" in
  json_body send_request = test_message
  ∧ Forall recipient_ok test_recipients
  ∧ outcome (run demo (sendmail send_request test_account) served)
    = Ok (json_response (VList []))
  ∧ sent_mails (trace (run demo (sendmail send_request test_account) served))
    = [(test_account, VStr "Test mail", VStr "test@example.com", VList [addr; addr])]
  ∧ made_msgs (trace (run demo (sendmail send_request test_account) served))
    = [(VStr "Test mail", VStr ("Content" +:+ String (ascii_of_nat 10) "Multiline"),
        VStr "test@example.com", VList [addr], VList [addr],
        VList [ VDict {[ "filename" := VStr "testfile.txt"; "b64" := VStr "VGVzdAo=" ]} ])].
Proof.
  intros addr.
  assert (Forall recipient_ok test_recipients) as Hok.
  { repeat constructor; vm_compute; eauto. }
  split; [reflexivity|]. split; [exact Hok|].
  pose proof (sendmail_envelope demo (λ a, a) send_request test_account _ test_recipients
                (VStr "Test mail")
                (VStr ("Content" +:+ String (ascii_of_nat 10) "Multiline"))
                (VStr "Test mail") (VList []) served served served
                eq_refl ltac:(vm_compute; reflexivity) Hok
                ltac:(vm_compute; reflexivity) ltac:(vm_compute; reflexivity)
                ltac:(intros a [σ st]; reflexivity)
                ltac:(reflexivity) ltac:(reflexivity)) as Hrun.
  rewrite Hrun. unfold outcome, trace. vm_compute. repeat split.
Defined.

Lemma sendmail_needs_its_fields_witness :
  getitem (json_body no_recipients) "recipients" = Exn (KeyError "recipients")
  ∧ Forall (λ ev, event_in is_send ev = false)
      (trace (run demo (sendmail no_recipients test_account) served))
  ∧ ∀ resp, outcome (run demo (sendmail no_recipients test_account) served) ≠ Ok resp.
Proof.
  assert (getitem (json_body no_recipients) "recipients" = Exn (KeyError "recipients"))
    as Hmissing by (vm_compute; reflexivity).
  split; [exact Hmissing|].
  exact (sendmail_needs_its_fields demo no_recipients test_account "recipients" _ served
           (or_introl eq_refl) Hmissing).
Defined.

Lemma served_records_are_fixed_points_witness :
  (step demo _ (GetMail "m2") served).1 = Ok (VDict test_mail)
  ∧ outcome (run demo (mail "m2" (with_cookie first_key) test_account) served)
    = Ok (json_response served_mail)
  ∧ (step (durable (replay served_mail)) _ (GetMail "m2") served).1 = Ok served_mail
  ∧ outcome (run (durable (replay served_mail))
               (mail "m2" (with_cookie first_key) test_account) served)
    = Ok (json_response served_mail).
Proof.
  assert ((step demo _ (GetMail "m2") served).1 = Ok (VDict test_mail)) as Hget
    by reflexivity.
  assert (outcome (run demo (mail "m2" (with_cookie first_key) test_account) served)
          = Ok (json_response served_mail)) as Hresp by (vm_compute; reflexivity).
  assert ((step (durable (replay served_mail)) _ (GetMail "m2") served).1 = Ok served_mail)
    as Hget' by reflexivity.
  split; [exact Hget|]. split; [exact Hresp|]. split; [exact Hget'|].
  exact (proj2 (proj2 (served_records_are_fixed_points demo (durable (replay served_mail))
                         "m2" (with_cookie first_key) test_account (VDict test_mail)
                         served_mail served served)) Hget Hresp Hget').
Defined.

Lemma failed_login_stores_nothing_witness :
  let req := mk_request {[ "session_key" := first_key ]} (json_body bad_login) ∅ in
  answer demo_backend _ (Authenticate (json_body req)) = Ok None
  ∧ sessions (final (run demo (handle_request RLogin req) logged_in)).2
    = sessions logged_in.2.
Proof.
  intros req.
  assert (answer demo_backend _ (Authenticate (json_body req)) = Ok None) as Hauth
    by (vm_compute; reflexivity).
  split; [exact Hauth|].
  exact (proj1 (failed_login_stores_nothing demo_backend req logged_in Hauth)).
Defined.

Lemma get_app_keeps_one_application_witness :
  app loaded = None
  ∧ ∃ a, get_apps 3 loaded = ([Some a; Some a; Some a], mk_module (Some a) 1)
         ∧ app_id a = 0%nat.
Proof.
  split; [reflexivity|].
  exact (proj1 (get_app_keeps_one_application 2 loaded eq_refl)).
Defined.

(** The mail of [test] is marked read for [test] and for nobody else. *)
Example effects_only_for_owner_example :
  updated_mails (trace (run demo (mail_mark_read "m2" (with_cookie first_key) test_account)
                          served))
  = [VDict (<["unread" := VBool false]> test_mail)]
  ∧ updated_mails (trace (run demo (mail_mark_read "m1" (with_cookie first_key)
                                      test_account) served))
    = [].
Proof. split; vm_compute; reflexivity. Qed.

End Examples.
